(** * Verification of the EFsafari dashboard backend core

    Shallow embedding, in Rocq, of the parts of the backend that the
    specification describes: the hierarchy builder of
    [/api/dashboard/hierarchy] (backend/api/routers/dashboard.py), the row
    formatter [format_row_for_frontend] (backend/api/database.py), the
    permission filters (backend/api/shared/permissions.py and
    backend/api/routers/daily_report.py), the daily report sync and lock
    endpoints, the UTC window of [/api/hourly/data]
    (backend/api/routers/hourly.py), the two-pass and MTG merges of the
    Clickflare ETL (backend/clickflare_etl/cf_etl.py) and the run of the
    hourly ETL (backend/clickflare_etl/cf_hourly_etl.py).

    Modelling conventions.
    - Counts (impressions, clicks, conversions, mobile counters) are Python
      ints read from ClickHouse [UInt64] sums: [N].
    - Money (spend, revenue) and every ratio are Python floats; they are
      modelled as exact rationals [Q], so floating point rounding is
      abstracted away and equalities on them are stated with [==].
    - A Python [dict] with string keys is an insertion-ordered association
      list ([Py.get], [Py.assign]); rows fetched as dicts are association
      lists from column names to values. *)

From Stdlib Require Import String List ZArith NArith QArith Qround Qabs Bool Lia Lqa Qminmax Setoid Morphisms.
Import ListNotations.
Local Set Warnings "-register-all".
Local Open Scope string_scope.

(** ** Python helpers *)
Module Py.

Section Dict.
Context {V : Type}.

(** [d.get(k)] *)
Fixpoint get (k : string) (d : list (string * V)) : option V :=
  match d with
  | [] => None
  | (k', v) :: t => if String.eqb k k' then Some v else get k t
  end.

(** [d[k] = v]: an existing key keeps its position, a new key is appended. *)
Fixpoint assign (k : string) (v : V) (d : list (string * V)) : list (string * V) :=
  match d with
  | [] => [(k, v)]
  | (k', v') :: t =>
      if String.eqb k k' then (k', v) :: t else (k', v') :: assign k v t
  end.

End Dict.

(** [x or 1] on a non-negative int. *)
Definition or1 (n : N) : N := if N.eqb n 0 then 1%N else n.

(** An int used as a float. *)
Definition QN (n : N) : Q := inject_Z (Z.of_N n).

End Py.

(** ** MetricTuple *)
Record metrics := mkMetrics {
  impressions : N; clicks : N; conversions : N;
  spend : Q; revenue : Q;
  m_imp : N; m_clicks : N; m_conv : N }.

Definition mzero : metrics := mkMetrics 0 0 0 0 0 0 0 0.

Definition madd (a b : metrics) : metrics :=
  mkMetrics (impressions a + impressions b) (clicks a + clicks b)
    (conversions a + conversions b) (spend a + spend b) (revenue a + revenue b)
    (m_imp a + m_imp b) (m_clicks a + m_clicks b) (m_conv a + m_conv b).

(** Elementwise equality (exact on counts, [==] on money). *)
Definition meq (a b : metrics) : Prop :=
  impressions a = impressions b /\ clicks a = clicks b /\
  conversions a = conversions b /\ spend a == spend b /\
  revenue a == revenue b /\ m_imp a = m_imp b /\
  m_clicks a = m_clicks b /\ m_conv a = m_conv b.

(** Elementwise sum of a list of tuples. *)
Definition msum (ms : list metrics) : metrics := fold_right madd mzero ms.

(** ** HierarchyBuilder: [get_data_hierarchy] / [fetch_hierarchy] *)
Module Hierarchy.

(** The ratio fields stored next to the sums in a node's [_metrics]. *)
Record derived := mkDerived {
  profit : Q; ctr : Q; cvr : Q; roi : Q; cpa : Q }.

(** A node: [{"_metrics", "_dimension", "_children"}]; [_children] is
    [None] at the last dimension.  (The [landerUrl]/[offerID] side fields
    never take part in the metrics and are left out.) *)
Inductive node := Node {
  n_metrics : metrics;
  n_derived : derived;
  n_dimension : string;
  n_children : option (list (string * node)) }.

Definition level := list (string * node).

(** [(revenue - spend) / spend if spend > 0 else 0] *)
Definition roi_of (rev sp : Q) : Q :=
  if Qle_bool sp 0 then 0 else (rev - sp) / sp.

(** Ratios written when a node is created from its first row. *)
Definition create_derived (m : metrics) : derived :=
  mkDerived (revenue m - spend m)
    (Py.QN (clicks m) / Py.QN (Py.or1 (impressions m)))
    (Py.QN (conversions m) / Py.QN (Py.or1 (clicks m)))
    (roi_of (revenue m) (spend m))
    (spend m / Py.QN (Py.or1 (conversions m))).

(** Ratios recomputed after an accumulation, from the accumulated sums [m]:
    [imp = impressions or 1], [clicks = clicks or 1],
    [conversions = conversions or 1], then [ctr = clicks / imp],
    [cvr = conversions / clicks], [cpa = spend / conversions]. *)
Definition acc_derived (m : metrics) : derived :=
  let imp := Py.or1 (impressions m) in
  let clk := Py.or1 (clicks m) in
  let conv := Py.or1 (conversions m) in
  mkDerived (revenue m - spend m)
    (Py.QN clk / Py.QN imp)
    (Py.QN conv / Py.QN clk)
    (roi_of (revenue m) (spend m))
    (spend m / Py.QN conv).

Definition new_node (d : string) (m : metrics) (is_last : bool) : node :=
  Node m (create_derived m) d (if is_last then None else Some []).

Definition accumulate (nd : node) (m : metrics) : node :=
  let m' := madd (n_metrics nd) m in
  Node m' (acc_derived m') (n_dimension nd) (n_children nd).

Definition with_children (nd : node) (ch : level) : node :=
  Node (n_metrics nd) (n_derived nd) (n_dimension nd) (Some ch).

(** One iteration of the [for i, dim in enumerate(dim_list)] loop and the
    rest of the walk, over the row's [(dimension, key)] path.  When the
    node is not at the last dimension but has no children, the Python loop
    stays at the current level; that case is kept. *)
Fixpoint insert_path (lvl : level) (p : list (string * string)) (m : metrics)
  : level :=
  match p with
  | [] => lvl
  | (d, v) :: rest =>
      let is_last := match rest with [] => true | _ => false end in
      let nd := match Py.get v lvl with
                | None => new_node d m is_last
                | Some nd => accumulate nd m
                end in
      match is_last, n_children nd with
      | false, Some ch => Py.assign v (with_children nd (insert_path ch rest m)) lvl
      | false, None => insert_path (Py.assign v nd lvl) rest m
      | true, _ => Py.assign v nd lvl
      end
  end.

(** A row of [result.named_results()]: the dimension columns and the sums. *)
Record flat_row := mkRow {
  r_cols : list (string * option string);
  r_metrics : metrics }.

(** [DIMENSION_COLUMN_MAP] of backend/api/models/schemas.py *)
Definition DIMENSION_COLUMN_MAP : list (string * string) :=
  [("platform", "Media"); ("advertiser", "advertiser"); ("offer", "offer");
   ("lander", "lander"); ("campaign_name", "Campaign");
   ("sub_campaign_name", "Adset"); ("creative_name", "Ads");
   ("date", "reportDate")].

(** [DIMENSION_COLUMN_MAP.get(dim, dim)] *)
Definition column_of (d : string) : string :=
  match Py.get d DIMENSION_COLUMN_MAP with Some c => c | None => d end.

(** [value = row.get(col_name, "Unknown")]; [""] and [None] become
    ["Unknown"]. *)
Definition level_key (row : flat_row) (d : string) : string :=
  match Py.get (column_of d) (r_cols row) with
  | Some (Some v) => if String.eqb v "" then "Unknown" else v
  | _ => "Unknown"
  end.

Definition row_path (dims : list string) (row : flat_row) : list (string * string) :=
  map (fun d => (d, level_key row d)) dims.

(** The hierarchy returned by [fetch_hierarchy]: the rows folded in order
    into [hierarchy = {}]. *)
Definition build_hierarchy (dims : list string) (rows : list flat_row) : level :=
  fold_left (fun h r => insert_path h (row_path dims r) (r_metrics r)) rows [].

(** The node reached by following the keys [q] from the top level. *)
Fixpoint node_at (lvl : level) (q : list string) : option node :=
  match q with
  | [] => None
  | k :: qs =>
      match Py.get k lvl with
      | None => None
      | Some nd =>
          match qs with
          | [] => Some nd
          | _ => match n_children nd with
                 | Some ch => node_at ch qs
                 | None => None
                 end
          end
      end
  end.

Fixpoint is_prefix (q p : list string) : bool :=
  match q, p with
  | [], _ => true
  | x :: q', y :: p' => String.eqb x y && is_prefix q' p'
  | _ :: _, [] => false
  end.

(** The rows whose key path starts with [q]. *)
Definition rows_under (dims : list string) (q : list string) (rows : list flat_row)
  : list flat_row :=
  filter (fun r => is_prefix q (map snd (row_path dims r))) rows.

(** Elementwise sum of the metrics of the top-level nodes. *)
Definition level_total (lvl : level) : metrics :=
  fold_right (fun kv acc => madd (n_metrics (snd kv)) acc) mzero lvl.

(** The node at key [v] after the current row is folded into it. *)
Definition step_node (lvl : level) (d v : string) (m : metrics) (is_last : bool) : node :=
  match Py.get v lvl with
  | None => new_node d m is_last
  | Some nd => accumulate nd m
  end.

(** Invariant of a level at [d] remaining dimensions: the nodes of the last
    level have no children, the others have a well-formed child level. *)
Fixpoint wf_level (d : nat) (lvl : level) : Prop :=
  match d with
  | O => True
  | S d' =>
      Forall (fun kv =>
        match d' with
        | O => n_children (snd kv) = None
        | S _ => match n_children (snd kv) with
                 | Some ch => wf_level d' ch
                 | None => False
                 end
        end) lvl
  end.

(** The sums and ratios of a node. *)
Definition info (nd : node) : metrics * derived := (n_metrics nd, n_derived nd).

(** What one more row with sums [m] does to the node it reaches. *)
Definition upd (o : option (metrics * derived)) (m : metrics) : metrics * derived :=
  match o with
  | None => (m, create_derived m)
  | Some (m0, _) => let m' := madd m0 m in (m', acc_derived m')
  end.

(** A non-empty key path [q] lies on the path [p]. *)
Definition hit (q p : list string) : bool :=
  match q with [] => false | _ => is_prefix q p end.

(** The row fold, projected on one key path [q]. *)
Definition path_step (dims q : list string) (acc : option (metrics * derived))
  (r : flat_row) : option (metrics * derived) :=
  if hit q (map snd (row_path dims r)) then Some (upd acc (r_metrics r)) else acc.

Definition base (o : option (metrics * derived)) : metrics :=
  match o with None => mzero | Some (m, _) => m end.

(** The properties every node's ratios have, whichever branch of the loop
    wrote them last. *)
Definition ratios_ok (i : metrics * derived) : Prop :=
  let (m, dv) := i in
  profit dv == revenue m - spend m /\
  cpa dv == spend m / Py.QN (N.max (conversions m) 1) /\
  (0 < spend m -> roi dv == (revenue m - spend m) / spend m) /\
  (spend m == 0 -> roi dv == 0) /\
  (clicks m <> 0%N -> ctr dv == Py.QN (clicks m) / Py.QN (N.max (impressions m) 1)) /\
  (conversions m <> 0%N -> cvr dv == Py.QN (conversions m) / Py.QN (N.max (clicks m) 1)).

(** Rows used to exercise the builder. *)
Definition mrow (media offer : string) (m : metrics) : flat_row :=
  mkRow [("Media", Some media); ("offer", Some offer)] m.

Definition imp_only (n : N) : metrics := mkMetrics n 0 0 0 0 0 0 0.

End Hierarchy.

(** ** Row formatter: [format_row_for_frontend] (backend/api/database.py) *)
Module Formatter.

(** The metric columns of a ClickHouse row; [None] is a missing key or a
    [NULL] value, which [row.get(k, 0) or 0] both read as 0. *)
Record raw_row := mkRaw {
  f_impressions : option N; f_clicks : option N; f_conversions : option N;
  f_spend : option Q; f_total_revenue : option Q; f_revenue : option Q;
  f_m_imp : option N; f_m_clicks : option N; f_m_conv : option N }.

(** [row.get(k, 0) or 0] on an int column. *)
Definition get_int (o : option N) : N := match o with Some n => n | None => 0%N end.

(** Truth value of a float value in Python. *)
Definition truthy (o : option Q) : bool :=
  match o with Some q => negb (Qeq_bool q 0) | None => false end.

(** [row.get(k, 0) or 0] on a float column. *)
Definition get_float (o : option Q) : Q :=
  match o with Some q => if truthy o then q else 0 | None => 0 end.

(** [x or 1] on a float. *)
Definition or1f (x : Q) : Q := if Qeq_bool x 0 then 1 else x.

(** Python's [/] on floats: [ZeroDivisionError] on a zero divisor. *)
Definition py_div (x y : Q) : option Q := if Qeq_bool y 0 then None else Some (x / y).

Definition bind {A B} (o : option A) (k : A -> option B) : option B :=
  match o with Some a => k a | None => None end.
Notation "'let*' x := e 'in' k" := (bind e (fun x => k))
  (at level 200, x name, e at level 100, k at level 200).

(** The metric part of the returned dict. *)
Record formatted := mkFormatted {
  o_impressions : N; o_clicks : N; o_conversions : N;
  o_spend : Q; o_revenue : Q; o_m_imp : N; o_m_clicks : N; o_m_conv : N;
  o_ctr : Q; o_cvr : Q; o_roi : Q; o_cpa : Q; o_rpa : Q; o_epc : Q; o_epv : Q;
  o_m_epc : Q; o_m_epv : Q; o_m_cpc : Q; o_m_cpv : Q }.

Definition format_row_for_frontend (row : raw_row) : option formatted :=
  let impressions := get_int (f_impressions row) in
  let clicks := get_int (f_clicks row) in
  let conversions := get_int (f_conversions row) in
  let spend := get_float (f_spend row) in
  (* row.get("total_revenue", 0) or row.get("revenue", 0) or 0 *)
  let revenue := if truthy (f_total_revenue row) then get_float (f_total_revenue row)
                 else get_float (f_revenue row) in
  let m_imp := get_int (f_m_imp row) in
  let m_clicks := get_int (f_m_clicks row) in
  let m_conv := get_int (f_m_conv row) in
  let* ctr := py_div (Py.QN clicks) (Py.QN (Py.or1 impressions)) in
  let* cvr := py_div (Py.QN conversions) (Py.QN (Py.or1 clicks)) in
  let* roi := py_div (revenue - spend) (or1f spend) in
  let* cpa := py_div spend (Py.QN (Py.or1 conversions)) in
  let* rpa := py_div revenue (Py.QN (Py.or1 conversions)) in
  let* epc := py_div revenue (Py.QN (Py.or1 clicks)) in
  let* epv := py_div revenue (Py.QN (Py.or1 impressions)) in
  let* m_epc := py_div revenue (Py.QN (Py.or1 m_clicks)) in
  let* m_epv := py_div revenue (Py.QN (Py.or1 m_imp)) in
  let* m_cpc := py_div spend (Py.QN (Py.or1 m_clicks)) in
  let* m_cpv := py_div spend (Py.QN (Py.or1 m_imp)) in
  Some (mkFormatted impressions clicks conversions spend revenue m_imp m_clicks m_conv
          ctr cvr roi cpa rpa epc epv m_epc m_epv m_cpc m_cpv).

(** The row a query returns for a MetricTuple (revenue in [revenue]). *)
Definition row_of_tuple (t : metrics) : raw_row :=
  mkRaw (Some (impressions t)) (Some (clicks t)) (Some (conversions t))
    (Some (spend t)) None (Some (revenue t))
    (Some (m_imp t)) (Some (m_clicks t)) (Some (m_conv t)).

End Formatter.

(** ** Permission filters (backend/api/shared/permissions.py and the
    daily-report router) *)
Module Permissions.

(** [sep.join(xs)] *)
Fixpoint join (sep : string) (xs : list string) : string :=
  match xs with
  | [] => ""
  | [x] => x
  | x :: rest => x ++ sep ++ join sep rest
  end.

(** [f"lower({col}) LIKE lower('%{k}%')"] *)
Definition like_cond (col k : string) : string :=
  "lower(" ++ col ++ ") LIKE lower('%" ++ k ++ "%')".

(** [f"({' OR '.join(keyword_conditions)})"]: the case-insensitive
    contains-any filter on column [col]. *)
Definition like_any (col : string) (user_keywords : list string) : string :=
  "(" ++ join " OR " (map (like_cond col) user_keywords) ++ ")".

Definition is_empty {A} (l : list A) : bool :=
  match l with [] => true | _ => false end.

(** [build_permission_filter] of backend/api/shared/permissions.py *)
Definition build_permission_filter (user_role : string) (user_keywords : list string)
  : option string :=
  if String.eqb user_role "admin" || is_empty user_keywords then None
  else if String.eqb user_role "ops" then Some (like_any "Adset" user_keywords)
  else if String.eqb user_role "ops02" then Some (like_any "Media" user_keywords)
  else if String.eqb user_role "business" then Some (like_any "offer" user_keywords)
  else None.

(** [_build_permission_filter] of backend/api/routers/daily_report.py *)
Definition daily_build_permission_filter (user_role : string) (user_keywords : list string)
  : option string :=
  if String.eqb user_role "admin" || is_empty user_keywords then None
  else if String.eqb user_role "ops" then Some (like_any "Media" user_keywords)
  else None.

End Permissions.

(** ** TwoPassMerger: [merge_two_pass_data] / [_make_merge_key]
    (backend/clickflare_etl/cf_etl.py).  An API row is a dict whose values
    are taken in their rendered string form (what the f-string prints). *)
Module TwoPass.

Definition row := list (string * string).

(** [row.get(k, '')] *)
Definition get_or (k : string) (r : row) : string :=
  match Py.get k r with Some v => v | None => "" end.

Definition _make_merge_key (r : row) : string :=
  get_or "date" r ++ "|" ++ get_or "trafficSourceID" r ++ "|" ++
  get_or "offerID" r ++ "|" ++ get_or "trackingField1" r ++ "|" ++
  get_or "trackingField2" r ++ "|" ++ get_or "trackingField3" r ++ "|" ++
  get_or "trackingField4" r ++ "|" ++ get_or "trackingField5" r ++ "|" ++
  get_or "trackingField6" r.

(** One iteration of the loop building [pass2_lookup]: an entry is stored
    only if its key is not in the lookup yet. *)
Definition lookup_step (lk : list (string * (string * string))) (r : row)
  : list (string * (string * string)) :=
  let key := _make_merge_key r in
  match Py.get key lk with
  | Some _ => lk
  | None => Py.assign key (get_or "landingID" r, get_or "landingName" r) lk
  end.

Definition build_lookup (pass2_data : list row) : list (string * (string * string)) :=
  fold_left lookup_step pass2_data [].

(** The body of the loop over [pass1_data]: [row["landingID"] = ...] then
    [row["landingName"] = ...]. *)
Definition merge_row (lk : list (string * (string * string))) (r : row) : row :=
  match Py.get (_make_merge_key r) lk with
  | Some (lid, lname) => Py.assign "landingName" lname (Py.assign "landingID" lid r)
  | None => Py.assign "landingName" "" (Py.assign "landingID" "" r)
  end.

Definition merge_two_pass_data (pass1_data pass2_data : list row) : list row :=
  match pass2_data with
  | [] => pass1_data
  | _ => map (merge_row (build_lookup pass2_data)) pass1_data
  end.

(** Lander fields of the first pass2 row with the same key as [r], or empty
    strings. *)
Definition first_lander (pass2_data : list row) (r : row) : string * string :=
  match find (fun r2 => String.eqb (_make_merge_key r2) (_make_merge_key r)) pass2_data with
  | Some r2 => (get_or "landingID" r2, get_or "landingName" r2)
  | None => ("", "")
  end.

Definition lander (r : row) : string * string := (get_or "landingID" r, get_or "landingName" r).

End TwoPass.

(** ** Hourly query window: [get_hourly_data] / [fetch_data]
    (backend/api/routers/hourly.py).  A naive datetime is its number of
    seconds since 1970-01-01 00:00 and a date its number of days since then;
    [utc_now] is taken to the second, as [strftime] prints it. *)
Module Hourly.
Local Open Scope Z_scope.

Definition TIMEZONE_OFFSETS : list (string * Z) :=
  [("UTC", 0%Z); ("Asia/Shanghai", 8%Z); ("EST", (-5)%Z); ("PST", (-8)%Z)].

(** [TIMEZONE_OFFSETS.get(timezone, 0)] *)
Definition tz_offset (timezone : string) : Z :=
  match Py.get timezone TIMEZONE_OFFSETS with Some o => o | None => 0%Z end.

Definition hours (h : Z) : Z := h * 3600.
Definition days (d : Z) : Z := d * 86400.

(** [datetime.strptime(start_date, ...)] for the date numbered [d] *)
Definition datetime_of_date (d : Z) : Z := days d.

(** [dt.date()] *)
Definition date_of (t : Z) : Z := t / 86400.

(** The UTC window [(utc_start_dt, utc_end_dt)] computed by [fetch_data]
    for the selected [start_date] ([end_date] is not used). *)
Definition query_window (start_date : Z) (timezone : string) (utc_now : Z) : Z * Z :=
  let tz := tz_offset timezone in
  let target_date := datetime_of_date start_date in
  let utc_start_dt := target_date + hours tz in
  let utc_day_end := target_date + days 1 - 1 + hours tz in
  let target_now := utc_now + hours tz in
  let target_today := date_of target_now in
  let selected_date := date_of target_date in
  let is_today := Z.eqb selected_date target_today in
  let utc_end_dt := if is_today then utc_now else utc_day_end in
  (utc_start_dt, utc_end_dt).

(** [toDateTime(reportDate) + toIntervalHour(reportHour)] *)
Definition row_ts (reportDate reportHour : Z) : Z := datetime_of_date reportDate + hours reportHour.

(** The timestamp filter: [ts >= utc_start_ts AND ts < utc_end_ts]. *)
Definition selected (w : Z * Z) (reportDate reportHour : Z) : bool :=
  (fst w <=? row_ts reportDate reportHour) && (row_ts reportDate reportHour <? snd w).

(** The hour label shown for a UTC hour: [(reportHour + tz_offset + 24) % 24]. *)
Definition local_hour (timezone : string) (reportHour : Z) : Z :=
  (reportHour + tz_offset timezone + 24) mod 24.

End Hourly.

(** ** SpendCorrectionLedger: the daily-report table and its write
    endpoints [sync_data_from_performance], [lock_date] and [update_spend]
    (backend/api/routers/daily_report.py).  The table
    [ad_platform.dwd_daily_report] is a MergeTree ordered by
    (reportDate, Media) with no uniqueness, so it is a list of rows; a date
    is a day number, so the YYYY-MM-DD validation always passes. *)
Module DailyReport.

Record report_row := mkReport {
  dr_reportDate : Z; dr_Media : string;
  dr_impressions : N; dr_clicks : N; dr_conversions : N; dr_revenue : Q;
  dr_spend_original : Q; dr_spend_manual : Q; dr_spend_final : Q;
  dr_m_imp : N; dr_m_clicks : N; dr_m_conv : N;
  dr_is_locked : bool; dr_last_modified_by : string }.

(** A row of [ad_platform.dwd_marketing_report_daily]. *)
Record source_row := mkSource { s_reportDate : Z; s_Media : string; s_metrics : metrics }.

Inductive http_error := Forbidden.

Definition may_write (user_role : string) : bool :=
  String.eqb user_role "admin" || String.eqb user_role "ops".

Definition in_range (start_date end_date d : Z) : bool :=
  (start_date <=? d)%Z && (d <=? end_date)%Z.

(** [GROUP BY reportDate, Media] with the sums of the metric columns. *)
Fixpoint group_add (k : Z * string) (m : metrics) (g : list ((Z * string) * metrics))
  : list ((Z * string) * metrics) :=
  match g with
  | [] => [(k, m)]
  | (k', m') :: rest =>
      if (Z.eqb (fst k) (fst k') && String.eqb (snd k) (snd k'))%bool
      then (k', madd m' m) :: rest
      else (k', m') :: group_add k m rest
  end.

Definition group_by (rows : list source_row) : list ((Z * string) * metrics) :=
  fold_left (fun g r => group_add (s_reportDate r, s_Media r) (s_metrics r) g) rows [].

(** One row of the [INSERT ... SELECT]. *)
Definition synced_row (username : string) (g : (Z * string) * metrics) : report_row :=
  let '((d, media), m) := g in
  mkReport d media (impressions m) (clicks m) (conversions m) (revenue m)
    (spend m) 0 (spend m) (m_imp m) (m_clicks m) (m_conv m) false username.

(** [ALTER TABLE ... DELETE WHERE reportDate >= start AND reportDate <= end
    AND is_locked = 0], then [INSERT INTO ... SELECT ... FROM
    dwd_marketing_report_daily WHERE reportDate >= start AND
    reportDate <= end GROUP BY reportDate, Media]. *)
Definition sync_data_from_performance (user_role username : string) (start_date end_date : Z)
  (source : list source_row) (table : list report_row) : http_error + list report_row :=
  if negb (may_write user_role) then inl Forbidden
  else
    let kept := filter (fun r => negb (in_range start_date end_date (dr_reportDate r)
                                       && negb (dr_is_locked r))) table in
    let selected := filter (fun r => in_range start_date end_date (s_reportDate r)) source in
    inr (kept ++ map (synced_row username) (group_by selected))%list.

(** [ALTER TABLE ... UPDATE is_locked = lock_value ... WHERE reportDate = date] *)
Definition lock_date (user_role username : string) (date : Z) (lock : bool)
  (table : list report_row) : http_error + list report_row :=
  if negb (may_write user_role) then inl Forbidden
  else inr (map (fun r => if Z.eqb (dr_reportDate r) date
                          then mkReport (dr_reportDate r) (dr_Media r) (dr_impressions r)
                                 (dr_clicks r) (dr_conversions r) (dr_revenue r)
                                 (dr_spend_original r) (dr_spend_manual r) (dr_spend_final r)
                                 (dr_m_imp r) (dr_m_clicks r) (dr_m_conv r) lock username
                          else r) table).

Definition same_key (date : Z) (media : string) (r : report_row) : bool :=
  Z.eqb (dr_reportDate r) date && String.eqb (dr_Media r) media.

(** [update_spend]: insert a fresh row when no row exists for
    (date, media), otherwise set spend_final to the value and spend_manual to
    the value minus the first row's spend_original. *)
Definition update_spend (user_role username : string) (date : Z) (media : string)
  (spend_value : Q) (table : list report_row) : http_error + list report_row :=
  if negb (may_write user_role) then inl Forbidden
  else
    match filter (same_key date media) table with
    | [] => inr (table ++ [mkReport date media 0 0 0 0 0 spend_value spend_value 0 0 0
                            false username])%list
    | r0 :: _ =>
        let new_spend_manual := spend_value - dr_spend_original r0 in
        inr (map (fun r => if same_key date media r
                           then mkReport (dr_reportDate r) (dr_Media r) (dr_impressions r)
                                  (dr_clicks r) (dr_conversions r) (dr_revenue r)
                                  (dr_spend_original r) new_spend_manual spend_value
                                  (dr_m_imp r) (dr_m_clicks r) (dr_m_conv r)
                                  (dr_is_locked r) username
                           else r) table)
    end.

Definition and_then {A} (x : http_error + A) (k : A -> http_error + A) : http_error + A :=
  match x with inl e => inl e | inr a => k a end.

(** The spec's scenario: sync day [d], set its final spend for [media],
    lock the day, sync it again. *)
Definition lock_scenario (d : Z) (media : string) (spend_value : Q)
  (source : list source_row) : http_error + list report_row :=
  and_then (sync_data_from_performance "admin" "alice" d d source []) (fun t1 =>
  and_then (update_spend "admin" "alice" d media spend_value t1) (fun t2 =>
  and_then (lock_date "admin" "alice" d true t2) (fun t3 =>
  sync_data_from_performance "admin" "alice" d d source t3))).

End DailyReport.

(** ** Hourly ETL refresh: [HourlyETL.run] (backend/clickflare_etl/cf_hourly_etl.py).
    The ClickFlare API is the function [responses] giving, for each page
    number, the page's items or [None] when [requests.post] raises a
    [RequestException] (connection error, timeout or HTTP error status).  The
    run threads a state made of the [hourly_report] table and the log of
    commands sent to ClickHouse. *)
Module HourlyETL.
Local Open Scope Z_scope.

(** An API item, with its [dateTime] (or [date] / [hourOfDay]) already
    parsed into a (day, hour) pair, [None] when both parses fail. *)
Record api_item := mkItem {
  i_when : option (Z * Z); i_trafficSourceName : string; i_revenue : Q; i_cost : Q }.

Record hourly_row := mkHourly {
  h_reportDate : Z; h_reportHour : Z; h_timezone : string; h_Media : string;
  h_spend : Q; h_revenue : Q }.

Inductive db_command :=
  | Delete (start_dt end_dt : Z)
  | Insert (rows : list hourly_row).

Record state := mkState { table : list hourly_row; commands : list db_command }.

Inductive exn := RequestException.

(** A state and exception monad. *)
Definition M (A : Type) : Type := state -> (exn + A) * state.
Definition ret {A} (a : A) : M A := fun s => (inr a, s).
Definition raise {A} (e : exn) : M A := fun s => (inl e, s).
Definition mbind {A B} (m : M A) (k : A -> M B) : M B :=
  fun s => match m s with
           | (inl e, s') => (inl e, s')
           | (inr a, s') => k a s'
           end.
Local Notation "'let!' x := m 'in' k" := (mbind m (fun x => k))
  (at level 200, x name, m at level 100, k at level 200).

Section Run.
Variable responses : nat -> option (list api_item).
Variable PAGE_SIZE : nat.
Variable max_pages : nat.
Variable special_keywords : list string.

(** The [while page <= max_pages] loop of [_fetch_api_data]. *)
Fixpoint fetch_loop (fuel : nat) (page : nat) (all_items : list api_item) : M (list api_item) :=
  match fuel with
  | O => ret all_items
  | S fuel' =>
      match responses page with
      | None => raise RequestException
      | Some [] => ret all_items
      | Some items =>
          let all_items' := (all_items ++ items)%list in
          if Nat.ltb (length items) PAGE_SIZE then ret all_items'
          else fetch_loop fuel' (S page) all_items'
      end
  end.

Definition _fetch_api_data : M (list api_item) := fetch_loop max_pages 1 [].

(** [keyword in media_name.lower()] for an ASCII media name. *)
Definition lower_ascii (c : Ascii.ascii) : Ascii.ascii :=
  let n := Ascii.nat_of_ascii c in
  if (Nat.leb 65 n && Nat.leb n 90)%bool then Ascii.ascii_of_nat (n + 32) else c.
Fixpoint lower (s : string) : string :=
  match s with EmptyString => EmptyString | String c s' => String (lower_ascii c) (lower s') end.
Definition contains (needle hay : string) : bool :=
  match String.index 0 needle hay with Some _ => true | None => false end.

Definition _is_special_media (media_name : string) : bool :=
  match media_name with
  | EmptyString => false
  | _ => existsb (fun k => contains k (lower media_name)) special_keywords
  end.

Definition transform_item (item : api_item) : option hourly_row :=
  match i_when item with
  | None => None
  | Some (d, h) =>
      let media_name := i_trafficSourceName item in
      let spend := if _is_special_media media_name then i_revenue item else i_cost item in
      Some (mkHourly d h "UTC" media_name spend (i_revenue item))
  end.

Definition _transform_data (raw_data : list api_item) : list hourly_row :=
  fold_right (fun it acc => match transform_item it with
                            | Some r => r :: acc
                            | None => acc
                            end) [] raw_data.

Definition row_ts (r : hourly_row) : Z := h_reportDate r * 86400 + h_reportHour r * 3600.

Definition _delete_existing_data (start_dt end_dt : Z) : M unit :=
  fun s => (inr tt,
            mkState (filter (fun r => negb (String.eqb (h_timezone r) "UTC"
                                             && (start_dt <=? row_ts r)
                                             && (row_ts r <? end_dt))%bool) (table s))
                    (commands s ++ [Delete start_dt end_dt])%list).

Definition _insert_data (data : list hourly_row) : M unit :=
  match data with
  | [] => ret tt
  | _ => fun s => (inr tt, mkState (table s ++ data)%list (commands s ++ [Insert data])%list)
  end.

(** The window: from [utc_now] minus 24 hours (or [test_hours]) floored to
    the hour, to [utc_now]. *)
Definition window (utc_now : Z) (test_hours : Z) : Z * Z :=
  let back := if 0 <? test_hours then test_hours else 24 in
  let s := utc_now - back * 3600 in
  (s - s mod 3600, utc_now).

Definition run (utc_now test_hours : Z) : M bool :=
  let '(start_dt, end_dt) := window utc_now test_hours in
  let! raw_data := _fetch_api_data in
  let transformed_data := _transform_data raw_data in
  let! _ := _delete_existing_data start_dt end_dt in
  let! _ := _insert_data transformed_data in
  ret true.

End Run.

End HourlyETL.

(** ** CostDataMerger: [_merge_mtg_data_to_cf] (backend/clickflare_etl/cf_etl.py).
    Rows carry the fields the merge reads or writes; Python floats are
    exact rationals. *)
Module MtgMerge.

Record cf_row := mkCf {
  c_reportDate : option string; c_dataSource : string; c_Media : string;
  c_CampaignID : string; c_Adset : string; c_AdsetID : string;
  c_Ads : string; c_AdsID : string;
  c_impressions : N; c_spend : Q; c_m_imp : N; c_m_clicks : N; c_m_conv : N }.

Record mtg_row := mkMtg {
  t_AdsetID : string; t_CampaignID : string; t_Adset : string;
  t_AdsID : string; t_Ads : string;
  t_spend : Q; t_m_imp : N; t_m_clicks : N; t_m_conv : N }.

(** An entry of [mtg_by_adset]. *)
Record agg := mkAgg {
  a_spend : Q; a_m_imp : N; a_m_clicks : N; a_m_conv : N;
  a_CampaignID : string; a_Adset : string; a_AdsID : string; a_Ads : string }.

(** Step 1: [mtg_by_adset], skipping AdsetID [""] and ["0"]. *)
Definition aggregate_step (acc : list (string * agg)) (t : mtg_row) : list (string * agg) :=
  let adset_id := t_AdsetID t in
  if String.eqb adset_id "" || String.eqb adset_id "0" then acc
  else
    let a := match Py.get adset_id acc with
             | Some a => a
             | None => mkAgg 0 0 0 0 (t_CampaignID t) (t_Adset t) (t_AdsID t) (t_Ads t)
             end in
    Py.assign adset_id
      (mkAgg (a_spend a + t_spend t) (a_m_imp a + t_m_imp t)%N
             (a_m_clicks a + t_m_clicks t)%N (a_m_conv a + t_m_conv t)%N
             (a_CampaignID a) (a_Adset a) (a_AdsID a) (a_Ads a)) acc.

Definition aggregate (mtg_data : list mtg_row) : list (string * agg) :=
  fold_left aggregate_step mtg_data [].

(** [_is_special_media]: [any(keyword.lower() in media_name.lower() ...)]. *)
Definition _is_special_media (mtg_media_keywords : list string) (media_name : string) : bool :=
  match media_name with
  | EmptyString => false
  | _ => existsb (fun k => HourlyETL.contains (HourlyETL.lower k) (HourlyETL.lower media_name))
                 mtg_media_keywords
  end.

(** Python's [round] on a float: to the nearest integer, ties to even. *)
Definition py_round (q : Q) : Z :=
  let f := Qfloor q in
  match Qcompare (q - inject_Z f) (1 # 2) with
  | Lt => f
  | Gt => (f + 1)%Z
  | Eq => if Z.even f then f else (f + 1)%Z
  end.

(** [int(round(x))] *)
Definition int_round (q : Q) : N := Z.to_N (py_round q).

Definition sum_impressions (rs : list cf_row) : N :=
  fold_right (fun r acc => (c_impressions r + acc)%N) 0%N rs.

Definition with_mtg (r : cf_row) (spend : Q) (mi mc mv : N) : cf_row :=
  mkCf (c_reportDate r) (c_dataSource r) (c_Media r) (c_CampaignID r) (c_Adset r)
       (c_AdsetID r) (c_Ads r) (c_AdsID r) (c_impressions r) spend mi mc mv.

(** The overwrite of one special CF row of the key. *)
Definition alloc_row (a : agg) (count total : N) (r : cf_row) : cf_row :=
  if N.eqb total 0 then
    with_mtg r (a_spend a / Py.QN count)
      (if N.ltb 0 count then int_round (Py.QN (a_m_imp a) / Py.QN count) else 0%N)
      (if N.ltb 0 count then int_round (Py.QN (a_m_clicks a) / Py.QN count) else 0%N)
      (if N.ltb 0 count then int_round (Py.QN (a_m_conv a) / Py.QN count) else 0%N)
  else
    let ratio := Py.QN (c_impressions r) / Py.QN total in
    with_mtg r (a_spend a * ratio)
      (int_round (Py.QN (a_m_imp a) * ratio))
      (int_round (Py.QN (a_m_clicks a) * ratio))
      (int_round (Py.QN (a_m_conv a) * ratio)).

Definition new_row (report_date : option string) (adset_id : string) (a : agg) : cf_row :=
  mkCf report_date "MTG" "Mintegral" (a_CampaignID a) (a_Adset a) adset_id
       (a_Ads a) (a_AdsID a) 0 (a_spend a) (a_m_imp a) (a_m_clicks a) (a_m_conv a).

Definition has_id (k : string) (r : cf_row) : bool := String.eqb (c_AdsetID r) k.

Section Merge.
Variable mtg_media_keywords : list string.
Variable report_date : option string.

Definition is_special (r : cf_row) : bool := _is_special_media mtg_media_keywords (c_Media r).

(** One iteration of step 3, on the CF rows (updated in place) and the
    [new_rows] built so far. *)
Definition merge_step (st : list cf_row * list cf_row) (e : string * agg)
  : list cf_row * list cf_row :=
  let '(cf, new_rows) := st in
  let '(adset_id, mtg_agg) := e in
  match filter (has_id adset_id) cf with
  | [] => (cf, (new_rows ++ [new_row report_date adset_id mtg_agg])%list)
  | matching_cf_rows =>
      match filter is_special matching_cf_rows with
      | [] => (cf, new_rows)
      | special_cf_rows =>
          let total := sum_impressions special_cf_rows in
          let count := N.of_nat (length special_cf_rows) in
          (map (fun r => if has_id adset_id r && is_special r
                         then alloc_row mtg_agg count total r else r) cf, new_rows)
      end
  end.

End Merge.

(** [cf_data[0].get('reportDate') if cf_data else None] *)
Definition report_date_of (cf_data : list cf_row) : option string :=
  match cf_data with [] => None | r :: _ => c_reportDate r end.

Definition _merge_mtg_data_to_cf (mtg_media_keywords : list string)
  (cf_data : list cf_row) (mtg_data : list mtg_row) : list cf_row :=
  match mtg_data with
  | [] => cf_data
  | _ =>
      let '(cf, new_rows) :=
        fold_left (merge_step mtg_media_keywords (report_date_of cf_data))
          (aggregate mtg_data) (cf_data, []) in
      (cf ++ new_rows)%list
  end.

(** Totals of the rows attributed to a key. *)
Definition sum_spend (rs : list cf_row) : Q := fold_right (fun r acc => c_spend r + acc) 0 rs.
Definition sum_m (f : cf_row -> N) (rs : list cf_row) : N :=
  fold_right (fun r acc => (f r + acc)%N) 0%N rs.

Definition proj (k : string) (s : list cf_row * list cf_row) : list cf_row * list cf_row :=
  (filter (has_id k) (fst s), filter (has_id k) (snd s)).

(** The part of one step seen from the rows of its own key. *)
Definition step_proj (kws : list string) (rd : option string) (k : string) (a : agg) (s : list cf_row * list cf_row)
  : list cf_row * list cf_row :=
  let '(F, N) := s in
  match F with
  | [] => (F, (N ++ [new_row rd k a])%list)
  | _ =>
      match filter (is_special kws) F with
      | [] => (F, N)
      | sp =>
          (map (fun r => if is_special kws r
                         then alloc_row a (N.of_nat (length sp)) (sum_impressions sp) r
                         else r) F, N)
      end
  end.

End MtgMerge.

Module MtgExamples.
Import MtgMerge.
Definition kws1 : list string := ["Mintegral"].
Definition cf_base (adset media : string) (imp : N) (spend : Q) : cf_row :=
  mkCf (Some "2026-01-01") "CF" media "c1" "adset" adset "ad" "ad1" imp spend 0 0 0.
(** Two Mintegral rows (impressions 1 and 2) for A1, a Facebook row for B2. *)
Definition cf1 : list cf_row :=
  [cf_base "A1" "Mintegral" 1 0; cf_base "A1" "Mintegral" 2 0; cf_base "B2" "Facebook" 5 3].
Definition mtg1 : list mtg_row :=
  [mkMtg "A1" "c1" "adset" "ad1" "ad" 10 7 3 1;
   mkMtg "B2" "c2" "adset2" "ad2" "ad" 10 4 2 1;
   mkMtg "C3" "c3" "adset3" "ad3" "ad" 5 1 1 0].
Definition agg_A1 : agg := mkAgg 10 7 3 1 "c1" "adset" "ad1" "ad".
Definition agg_B2 : agg := mkAgg 10 4 2 1 "c2" "adset2" "ad2" "ad".
End MtgExamples.

(** ** Views of the daily-report table used by the properties below *)
Module DailyReport2.
Import DailyReport.
(** The metric columns of a row as the reports read them
    ([sum(spend_final) as spend]). *)
Definition row_metrics (r : report_row) : metrics :=
  mkMetrics (dr_impressions r) (dr_clicks r) (dr_conversions r) (dr_spend_final r)
    (dr_revenue r) (dr_m_imp r) (dr_m_clicks r) (dr_m_conv r).
Definition row_key (r : report_row) : Z * string := (dr_reportDate r, dr_Media r).
Definition unlocked_in (sd ed : Z) (r : report_row) : bool :=
  in_range sd ed (dr_reportDate r) && negb (dr_is_locked r).
Definition key_eqb (k k' : Z * string) : bool :=
  (Z.eqb (fst k) (fst k') && String.eqb (snd k) (snd k'))%bool.

Definition gstep (g : list ((Z * string) * metrics)) (r : source_row) :=
  group_add (s_reportDate r, s_Media r) (s_metrics r) g.

End DailyReport2.

Module HourlyETL2.
Import HourlyETL.
(** An uppercase ASCII letter, as [lower_ascii] tests it. *)
Definition is_upper (c : Ascii.ascii) : bool :=
  let n := Ascii.nat_of_ascii c in (Nat.leb 65 n && Nat.leb n 90)%bool.
Fixpoint has_upper (s : string) : bool :=
  match s with EmptyString => false | String c s' => is_upper c || has_upper s' end.
Definition parsable (it : api_item) : bool :=
  match i_when it with Some _ => true | None => false end.
Definition in_window (w : Z * Z) (r : hourly_row) : bool :=
  (String.eqb (h_timezone r) "UTC" && (fst w <=? row_ts r)%Z && (row_ts r <? snd w)%Z)%bool.
End HourlyETL2.

(** ** Hour labels and hour filters of [get_hourly_data]
    (backend/api/routers/hourly.py).  A grouped row of the hour dimension
    carries [((reportHour + tz_offset + 24) % 24)] ([Hourly.local_hour]);
    [_format_row_for_frontend] names it [f"{hour_val:02d}:00"], and a filter
    on the hour dimension is turned back into a UTC hour. *)
Module HourFilter.
Local Open Scope Z_scope.

Definition digit (n : Z) : Ascii.ascii := Ascii.ascii_of_nat (48 + Z.to_nat n).

(** The decimal digits of [n >= 0], most significant first. *)
Fixpoint digits_aux (fuel : nat) (n : Z) (acc : string) : string :=
  match fuel with
  | O => acc
  | S f =>
      let acc' := String (digit (n mod 10)) acc in
      if n <? 10 then acc' else digits_aux f (n / 10) acc'
  end.

Definition digits (n : Z) : string := digits_aux (S (Z.to_nat (Z.log2 n))) n "".

(** [f"{n:02d}"] *)
Definition format_02d (n : Z) : string :=
  if n <? 0 then "-" ++ digits (- n)
  else if n <? 10 then "0" ++ digits n
  else digits n.

(** The [name] of an hour row: [f"{hour_val:02d}:00"]. *)
Definition hour_name (hour_val : Z) : string := format_02d hour_val ++ ":00".

(** [value.split(":")[0]] *)
Fixpoint before_colon (s : string) : string :=
  match s with
  | EmptyString => EmptyString
  | String c s' => if Ascii.eqb c (Ascii.ascii_of_nat 58) (* ":" *) then EmptyString else String c (before_colon s')
  end.

Section Filter.
(** Python's [int] on a string; [None] when it raises [ValueError]. *)
Variable py_int : string -> option Z.

(** The UTC hour of an hour filter in [fetch_data]:
    [hour_val = int(value.split(":")[0])] when [":" in value], else
    [int(value)]; then [utc_hour = (hour_val - tz_offset + 24) % 24].
    [None] is the [except] branch, which puts the raw value in the query. *)
Definition hour_filter_utc (tz_offset : Z) (value : string) : option Z :=
  match (if HourlyETL.contains ":" value then py_int (before_colon value) else py_int value) with
  | Some hour_val => Some ((hour_val - tz_offset + 24) mod 24)
  | None => None
  end.

End Filter.

(** The parts [":" in value] and [value.split(":")[0]] of an hour name. *)
Definition name_ok (h : Z) : bool :=
  HourlyETL.contains ":" (hour_name h) && String.eqb (before_colon (hour_name h)) (format_02d h).

End HourFilter.

Module MtgMerge2.
Import MtgMerge.
(** The MTG rows [mtg_by_adset] keeps: AdsetID neither [""] nor ["0"]. *)
Definition valid_adset (t : mtg_row) : bool :=
  negb (String.eqb (t_AdsetID t) "" || String.eqb (t_AdsetID t) "0").
Definition agg_total_Q (f : agg -> Q) (d : list (string * agg)) : Q :=
  fold_right (fun e acc => f (snd e) + acc) 0 d.
Definition agg_total_N (f : agg -> N) (d : list (string * agg)) : N :=
  fold_right (fun e acc => (f (snd e) + acc)%N) 0%N d.
Definition mtg_total_Q (f : mtg_row -> Q) (l : list mtg_row) : Q :=
  fold_right (fun t acc => f t + acc) 0 l.
Definition mtg_total_N (f : mtg_row -> N) (l : list mtg_row) : N :=
  fold_right (fun t acc => (f t + acc)%N) 0%N l.
Section Inv.
Variable kws : list string.
Variable cf : list cf_row.

Definition R (keys : list string) (r r' : cf_row) : Prop :=
  r' = r \/ (is_special kws r = true /\ In (c_AdsetID r) keys /\
             exists s mi mc mv, r' = with_mtg r s mi mc mv).

Definition newP (keys : list string) (n : cf_row) : Prop :=
  c_dataSource n = "MTG" /\ c_Media n = "Mintegral" /\ c_impressions n = 0%N /\
  In (c_AdsetID n) keys /\ ~ In (c_AdsetID n) (map c_AdsetID cf).

Definition inv (keys : list string) (st : list cf_row * list cf_row) : Prop :=
  Forall2 (R keys) cf (fst st) /\ Forall (newP keys) (snd st) /\ NoDup (map c_AdsetID (snd st)).

End Inv.

End MtgMerge2.

(** ** Filter conditions of the dashboard queries: [_build_where_clause]
    (backend/api/routers/dashboard.py).  A filter is its
    ([dimension], [value]) pair. *)
Module Dashboard.

Definition quote : Ascii.ascii := Ascii.ascii_of_nat 39.

(** [value.replace("'", "''")] *)
Fixpoint escape_quotes (s : string) : string :=
  match s with
  | EmptyString => EmptyString
  | String c s' =>
      if Ascii.eqb c quote then String quote (String quote (escape_quotes s'))
      else String c (escape_quotes s')
  end.

(** [f"{column} = '{escaped_value}'"] *)
Definition filter_condition (f : string * string) : string :=
  let '(dim, value) := f in
  Hierarchy.column_of dim ++ " = '" ++ escape_quotes value ++ "'".

Definition _build_where_clause (start_date end_date : string) (filters : list (string * string))
  (permission_filter : option string) : string :=
  let conditions := ["reportDate >= '" ++ start_date ++ "' AND reportDate <= '" ++ end_date ++ "'"] in
  let conditions := match permission_filter with
                    | Some p => if String.eqb p "" then conditions else (conditions ++ [p])%list
                    | None => conditions
                    end in
  Permissions.join " AND " (conditions ++ map filter_condition filters)%list.

End Dashboard.

(** ** How ClickHouse reads a single-quoted string literal (the server's
    lexer, not code of this repository).  Given the text after the opening
    quote, it returns the literal's value and the text after the closing
    quote: [''] stands for one quote and a backslash escapes the next
    character (the escaped character is kept as it is, which is exact for
    [\'] and [\\]). *)
Module ClickHouse.

Definition backslash : Ascii.ascii := Ascii.ascii_of_nat 92.

Definition cons_value (c : Ascii.ascii) (o : option (string * string)) : option (string * string) :=
  match o with Some (v, r) => Some (String c v, r) | None => None end.

Fixpoint read_string_body (s : string) : option (string * string) :=
  match s with
  | EmptyString => None
  | String c s' =>
      if Ascii.eqb c backslash then
        match s' with
        | EmptyString => None
        | String d s'' => cons_value d (read_string_body s'')
        end
      else if Ascii.eqb c Dashboard.quote then
        match s' with
        | String d s'' =>
            if Ascii.eqb d Dashboard.quote then cons_value Dashboard.quote (read_string_body s'')
            else Some (EmptyString, s')
        | EmptyString => Some (EmptyString, EmptyString)
        end
      else cons_value c (read_string_body s')
  end.

Fixpoint has_backslash (s : string) : bool :=
  match s with
  | EmptyString => false
  | String c s' => Ascii.eqb c backslash || has_backslash s'
  end.

End ClickHouse.

(** ** The date -> media hierarchy of the daily report: [get_hierarchy]
    (backend/api/routers/daily_report.py).  A row of the query is its
    [date_str], its [media] and its sums (spend is [sum(spend_final)]). *)
Module DailyHierarchy.

(** The ratios of [_calculate_metrics]. *)
Record daily_derived := mkDaily {
  d_ctr : Q; d_cvr : Q; d_roi : Q; d_cpa : Q; d_rpa : Q; d_epc : Q; d_epv : Q;
  d_m_epc : Q; d_m_epv : Q; d_m_cpc : Q; d_m_cpv : Q; d_profit : Q }.

Definition zero_derived : daily_derived := mkDaily 0 0 0 0 0 0 0 0 0 0 0 0.

(** [_calculate_metrics(row)]; the date-level block after the loop uses the
    same formulas on the date sums. *)
Definition _calculate_metrics (m : metrics) : daily_derived :=
  let imp := Py.QN (Py.or1 (impressions m)) in
  let clk := Py.QN (Py.or1 (clicks m)) in
  let conv := Py.QN (Py.or1 (conversions m)) in
  let mimp := Py.QN (Py.or1 (m_imp m)) in
  let mclk := Py.QN (Py.or1 (m_clicks m)) in
  mkDaily (Py.QN (clicks m) / imp) (Py.QN (conversions m) / clk)
    ((revenue m - spend m) / Formatter.or1f (spend m))
    (spend m / conv) (revenue m / conv) (revenue m / clk) (revenue m / imp)
    (revenue m / mclk) (revenue m / mimp) (spend m / mclk) (spend m / mimp)
    (revenue m - spend m).

Record query_row := mkQRow { q_date_str : string; q_media : string; q_metrics : metrics }.

Record date_node := mkDateNode {
  dn_metrics : metrics; dn_derived : daily_derived;
  dn_children : list (string * (metrics * daily_derived)) }.

Definition media_node (row : query_row) : metrics * daily_derived :=
  (q_metrics row, _calculate_metrics (q_metrics row)).

(** One iteration of the loop over the rows. *)
Definition hierarchy_step (hierarchy : list (string * date_node)) (row : query_row)
  : list (string * date_node) :=
  let date_node := match Py.get (q_date_str row) hierarchy with
                   | Some n => n
                   | None => mkDateNode mzero zero_derived []
                   end in
  Py.assign (q_date_str row)
    (mkDateNode (madd (dn_metrics date_node) (q_metrics row)) (dn_derived date_node)
       (Py.assign (q_media row) (media_node row) (dn_children date_node)))
    hierarchy.

Definition get_hierarchy (rows : list query_row) : list (string * date_node) :=
  map (fun e => let '(d, n) := e in
                (d, mkDateNode (dn_metrics n) (_calculate_metrics (dn_metrics n)) (dn_children n)))
      (fold_left hierarchy_step rows []).

End DailyHierarchy.

(** ** The two levels of the daily report: [get_daily_report]
    (backend/api/routers/daily_report.py) without [media] (one row per
    media, [GROUP BY Media]) and with [media] (the table rows of that
    media).  [visible] is the rest of the WHERE clause: the date range and
    the permission filter. *)
Module DailyLevels.
Import DailyReport.





End DailyLevels.

(** ** Sample inputs *)

(** A small daily report table and source table. *)
Module DailyExamples.
Import DailyReport.

Definition m1 : metrics := mkMetrics 100 10 2 5 8 90 9 1.

Definition row (d : Z) (media : string) (locked : bool) : report_row :=
  mkReport d media 50 5 1 4 3 0 3 40 4 1 locked "bob".

Definition source : list source_row :=
  [mkSource 1 "fb" m1; mkSource 1 "fb" m1; mkSource 2 "tt" m1; mkSource 9 "fb" m1].

Definition table : list report_row := [row 1 "fb" false; row 2 "tt" true; row 7 "gg" false].

Definition result (x : http_error + list report_row) : list report_row :=
  match x with inr t => t | inl _ => [] end.

Definition synced : list report_row :=
  result (sync_data_from_performance "admin" "alice" 1 3 source table).
Definition unlocked : list report_row := result (lock_date "admin" "alice" 2 false table).
Definition unlocked_synced : list report_row :=
  result (sync_data_from_performance "ops" "carol" 1 3 source unlocked).
Definition locked : list report_row := result (lock_date "admin" "alice" 1 true table).
Definition locked_synced : list report_row :=
  result (sync_data_from_performance "ops" "carol" 1 3 source locked).


End DailyExamples.

(** Rows of the date-by-media query of the daily hierarchy. *)
Module HierarchyExamples.
Import DailyHierarchy.

Definition rows : list query_row :=
  [mkQRow "2024-05-02" "fb" (mkMetrics 100 10 2 5 8 90 9 1);
   mkQRow "2024-05-02" "tt" (mkMetrics 40 4 0 2 1 30 3 0);
   mkQRow "2024-05-01" "fb" (mkMetrics 70 7 1 3 6 60 6 1)].

End HierarchyExamples.

(** An API with two pages and a state for the hourly ETL. *)
Module HourlyExamples.
Import HourlyETL.

Definition item1 : api_item := mkItem (Some (19000, 3)%Z) "Mintegral" 5 2.
Definition item2 : api_item := mkItem None "fb" 1 1.
Definition item3 : api_item := mkItem (Some (19000, 4)%Z) "fb" 7 3.

Definition responses (p : nat) : option (list api_item) :=
  match p with
  | 1%nat => Some [item1; item2]
  | 2%nat => Some [item3]
  | _ => None
  end.

(** The same API with a third page. *)
Definition responses' (p : nat) : option (list api_item) :=
  match p with
  | 3%nat => Some [item1]
  | _ => responses p
  end.

Definition old_row : hourly_row := mkHourly 19000%Z 3%Z "UTC" "fb" 9 9.
Definition other_row : hourly_row := mkHourly 18990%Z 3%Z "UTC" "fb" 1 1.

Definition st : state := mkState [old_row; other_row] [].

Definition utc_now : Z := (19000 * 86400 + 5 * 3600)%Z.

Definition after_run : (exn + bool) * state := run responses 2 2 ["mintegral"] utc_now 0%Z st.

(** Python's [int] on a string of decimal digits. *)
Fixpoint decimal_aux (s : string) (acc : Z) : option Z :=
  match s with
  | EmptyString => Some acc
  | String c s' =>
      let n := Ascii.nat_of_ascii c in
      if (Nat.leb 48 n && Nat.leb n 57)%bool
      then decimal_aux s' (acc * 10 + Z.of_nat (n - 48))
      else None
  end.

Definition decimal_int (s : string) : option Z :=
  match s with EmptyString => None | _ => decimal_aux s 0 end.

End HourlyExamples.

(** ** Reference formulas of the specification

    The derived metrics as the specification words them ("treat a zero
    denominator as 1", written [max(x, 1)]); compared below with what the
    code computes. *)
Module Reference.

Definition ctr (m : metrics) : Q := Py.QN (clicks m) / Py.QN (N.max (impressions m) 1).
Definition cvr (m : metrics) : Q := Py.QN (conversions m) / Py.QN (N.max (clicks m) 1).
Definition profit (m : metrics) : Q := revenue m - spend m.
Definition roi (m : metrics) : Q := profit m / Qmax (spend m) 1.
Definition cpa (m : metrics) : Q := spend m / Py.QN (N.max (conversions m) 1).

End Reference.

(** * Proofs *)

(** ** Elementwise arithmetic on metric tuples *)

Ltac msolve :=
  unfold meq, madd, mzero in *; cbn in *;
  repeat match goal with H : _ /\ _ |- _ => destruct H end;
  repeat split; first [lia | lra].

Lemma meq_refl (a : metrics) : meq a a.
Proof. msolve. Qed.

Lemma meq_sym (a b : metrics) : meq a b -> meq b a.
Proof. intros; msolve. Qed.

Lemma meq_trans (a b c : metrics) : meq a b -> meq b c -> meq a c.
Proof. intros; msolve. Qed.

Lemma madd_compat (a a' b b' : metrics) :
  meq a a' -> meq b b' -> meq (madd a b) (madd a' b').
Proof. intros; msolve. Qed.

Lemma madd_assoc (a b c : metrics) : meq (madd (madd a b) c) (madd a (madd b c)).
Proof. msolve. Qed.

Lemma madd_comm (a b : metrics) : meq (madd a b) (madd b a).
Proof. msolve. Qed.

Lemma madd_zero_l (a : metrics) : meq (madd mzero a) a.
Proof. msolve. Qed.

Lemma madd_zero_r (a : metrics) : meq (madd a mzero) a.
Proof. msolve. Qed.

#[local] Instance meq_equivalence : Equivalence meq.
Proof. split; [exact meq_refl | exact meq_sym | exact meq_trans]. Qed.

#[local] Instance madd_proper : Proper (meq ==> meq ==> meq) madd.
Proof. intros a a' Ha b b' Hb. now apply madd_compat. Qed.

Lemma or1_max (n : N) : Py.or1 n = N.max n 1.
Proof. unfold Py.or1. destruct (N.eqb_spec n 0); lia. Qed.

Lemma or1_nz (n : N) : n <> 0%N -> Py.or1 n = n.
Proof. unfold Py.or1. destruct (N.eqb_spec n 0); [contradiction | reflexivity]. Qed.

(** ** Association lists *)
Module PyFacts.

Lemma get_assign_same {V} (k : string) (v : V) d : Py.get k (Py.assign k v d) = Some v.
Proof.
  induction d as [|[k' v'] t IH]; cbn.
  - now rewrite String.eqb_refl.
  - destruct (String.eqb k k') eqn:E; cbn; rewrite E; auto.
Qed.

Lemma get_assign_other {V} (k k' : string) (v : V) d :
  k' <> k -> Py.get k' (Py.assign k v d) = Py.get k' d.
Proof.
  intros Hne. induction d as [|[k0 v0] t IH]; cbn.
  - destruct (String.eqb k' k) eqn:E; auto.
    apply String.eqb_eq in E; congruence.
  - destruct (String.eqb k k0) eqn:E; cbn.
    + apply String.eqb_eq in E; subst k0.
      destruct (String.eqb k' k) eqn:E'; auto.
      apply String.eqb_eq in E'; congruence.
    + destruct (String.eqb k' k0); auto.
Qed.

Lemma Forall_assign {V} (P : V -> Prop) k v d :
  Forall (fun kv => P (snd kv)) d -> P v ->
  Forall (fun kv => P (snd kv)) (Py.assign k v d).
Proof.
  intros HF Hv. induction HF as [|[k0 v0] t H0 HF IH]; cbn.
  - constructor; auto.
  - destruct (String.eqb k k0); constructor; auto.
Qed.

Lemma Forall_get {V} (P : V -> Prop) k v d :
  Forall (fun kv => P (snd kv)) d -> Py.get k d = Some v -> P v.
Proof.
  intros HF. induction HF as [|[k0 v0] t H0 HF IH]; cbn; [discriminate|].
  destruct (String.eqb k k0); [intros [= <-]; exact H0 | exact IH].
Qed.

End PyFacts.

(** ** HierarchyBuilder *)
Module HierarchyFacts.
Import Hierarchy.

Lemma node_at_nil lvl : node_at lvl [] = None.
Proof. reflexivity. Qed.

Lemma node_at_empty q : node_at [] q = None.
Proof. destruct q; reflexivity. Qed.

Lemma insert_path_inner lvl d v rest m :
  rest <> [] ->
  insert_path lvl ((d, v) :: rest) m =
  match n_children (step_node lvl d v m false) with
  | Some ch => Py.assign v (with_children (step_node lvl d v m false) (insert_path ch rest m)) lvl
  | None => insert_path (Py.assign v (step_node lvl d v m false) lvl) rest m
  end.
Proof. destruct rest; [congruence | reflexivity]. Qed.

Lemma length_row_path dims r : length (row_path dims r) = length dims.
Proof. unfold row_path. now rewrite length_map. Qed.

(** Inserting one path of the full depth keeps the shape and changes
    exactly the nodes on that path. *)
Lemma insert_path_spec (p : list (string * string)) :
  forall lvl m, (1 <= length p)%nat -> wf_level (length p) lvl ->
  wf_level (length p) (insert_path lvl p m) /\
  forall q, (length q <= length p)%nat ->
    option_map info (node_at (insert_path lvl p m) q) =
    if hit q (map snd p) then Some (upd (option_map info (node_at lvl q)) m)
    else option_map info (node_at lvl q).
Proof.
  induction p as [|[d v] rest IH]; intros lvl m Hlen Hwf; [cbn in Hlen; lia|].
  destruct rest as [|[d1 v1] rest'].
  - (* last dimension *)
    cbn in Hwf |- *.
    set (nd := match Py.get v lvl with
               | Some nd0 => accumulate nd0 m
               | None => new_node d m true end).
    assert (Hnd : n_children nd = None /\ info nd = upd (option_map info (Py.get v lvl)) m).
    { subst nd. destruct (Py.get v lvl) as [nd0|] eqn:G; cbn; [|auto].
      split; [|reflexivity].
      exact (PyFacts.Forall_get (fun x => n_children x = None) v nd0 lvl Hwf G). }
    destruct Hnd as [Hch Hinfo].
    split.
    + apply PyFacts.Forall_assign with (P := fun x => n_children x = None); auto.
    + intros q Hq. destruct q as [|k [|k' q']]; cbn in Hq |- *; [reflexivity| |lia].
      destruct (String.eqb k v) eqn:E.
      * apply String.eqb_eq in E; subst k. rewrite PyFacts.get_assign_same.
        cbn. rewrite Hinfo. destruct (Py.get v lvl); reflexivity.
      * rewrite PyFacts.get_assign_other by (intro; subst; rewrite String.eqb_refl in E; discriminate).
        cbn. destruct (Py.get k lvl); reflexivity.
  - (* an inner dimension *)
    remember ((d1, v1) :: rest') as rest eqn:Hrest.
    assert (Hne : rest <> []) by (subst; discriminate).
    assert (Hn : exists n0, length rest = S n0) by (subst; eexists; reflexivity).
    destruct Hn as [n0 Hn]. clear Hrest.
    replace (length ((d, v) :: rest)) with (S (S n0)) in * by (cbn; lia).
    rewrite Hn in IH.
    set (wfc := fun x : node => match n_children x with
                                | Some ch => wf_level (S n0) ch
                                | None => False end).
    assert (Hwf' : Forall (fun kv => wfc (snd kv)) lvl) by exact Hwf. clear Hwf.
    enough (HG : Forall (fun kv => wfc (snd kv)) (insert_path lvl ((d, v) :: rest) m) /\
            forall q, (length q <= S (S n0))%nat ->
              option_map info (node_at (insert_path lvl ((d, v) :: rest) m) q) =
              if hit q (map snd ((d, v) :: rest))
              then Some (upd (option_map info (node_at lvl q)) m)
              else option_map info (node_at lvl q)) by exact HG.
    rewrite (insert_path_inner lvl d v rest m Hne).
    (* the node at key [v] and the child level the walk descends into *)
    assert (Hsel : exists nd ch,
              step_node lvl d v m false = nd /\ n_children nd = Some ch /\
              wf_level (S n0) ch /\
              info nd = upd (option_map info (Py.get v lvl)) m /\
              forall q', q' <> [] -> node_at ch q' = node_at lvl (v :: q')).
    { unfold step_node. destruct (Py.get v lvl) as [nd0|] eqn:G.
      - pose proof (PyFacts.Forall_get wfc v nd0 lvl Hwf' G) as H0.
        unfold wfc in H0. destruct (n_children nd0) as [ch0|] eqn:C0; [|contradiction].
        exists (accumulate nd0 m), ch0. cbn. rewrite C0. repeat split; auto.
        intros q' Hq'. rewrite G. destruct q'; [congruence|]. now rewrite C0.
      - exists (new_node d m false), []. cbn. repeat split; auto.
        intros q' Hq'. rewrite G. apply node_at_empty. }
    destruct Hsel as (nd & ch & Hnd & Hch & Hwch & Hinfo & Hold).
    rewrite Hnd, Hch.
    destruct (IH ch m ltac:(lia) Hwch) as [Hw Hq].
    split.
    + apply PyFacts.Forall_assign; [exact Hwf'|]. exact Hw.
    + intros q Hlq. destruct q as [|k q']; [reflexivity|].
      cbn [hit map snd is_prefix].
      destruct (String.eqb k v) eqn:E.
      * apply String.eqb_eq in E; subst k. cbn [node_at].
        rewrite PyFacts.get_assign_same. cbn [andb].
        destruct q' as [|k2 q''].
        -- cbn. change (info (with_children nd (insert_path ch rest m))) with (info nd).
           rewrite Hinfo. destruct (Py.get v lvl); reflexivity.
        -- cbn [n_children with_children].
           rewrite (Hq (k2 :: q'')) by (cbn in Hlq |- *; lia).
           rewrite (Hold (k2 :: q'')) by discriminate.
           cbn [hit]. destruct (is_prefix (k2 :: q'') (map snd rest)); reflexivity.
      * cbn [node_at andb].
        rewrite PyFacts.get_assign_other
          by (intro; subst; rewrite String.eqb_refl in E; discriminate).
        reflexivity.
Qed.
Lemma wf_last_get lvl v nd :
  wf_level 1 lvl -> Py.get v lvl = Some nd -> n_children nd = None.
Proof. intros Hwf G. exact (PyFacts.Forall_get (fun x => n_children x = None) v nd lvl Hwf G). Qed.

Lemma wf_inner_get n lvl v nd :
  wf_level (S (S n)) lvl -> Py.get v lvl = Some nd ->
  exists ch, n_children nd = Some ch /\ wf_level (S n) ch.
Proof.
  intros Hwf G.
  pose proof (PyFacts.Forall_get (fun x => match n_children x with
                                           | Some ch => wf_level (S n) ch
                                           | None => False end) v nd lvl Hwf G) as H.
  cbn beta in H. destruct (n_children nd); [eauto | contradiction].
Qed.

(** The nodes below the last dimension do not exist. *)
Lemma node_at_deep (q : list string) :
  forall d lvl, wf_level (S d) lvl -> (S d < length q)%nat -> node_at lvl q = None.
Proof.
  induction q as [|k qs IH]; intros d lvl Hwf Hl; [reflexivity|].
  cbn [node_at]. destruct (Py.get k lvl) as [nd|] eqn:G; [|reflexivity].
  destruct qs as [|k2 qs']; [cbn in Hl; lia|].
  destruct d as [|d'].
  - now rewrite (wf_last_get lvl k nd Hwf G).
  - destruct (wf_inner_get d' lvl k nd Hwf G) as (ch & Hc & Hch). rewrite Hc.
    apply (IH d' ch Hch). cbn in Hl |- *; lia.
Qed.

Lemma fold_insert_spec dims (Hd : dims <> []) (rows : list flat_row) :
  forall lvl, wf_level (length dims) lvl ->
  let h := fold_left (fun h r => insert_path h (row_path dims r) (r_metrics r)) rows lvl in
  wf_level (length dims) h /\
  forall q, (length q <= length dims)%nat ->
    option_map info (node_at h q) =
    fold_left (path_step dims q) rows (option_map info (node_at lvl q)).
Proof.
  assert (H1 : (1 <= length dims)%nat) by (destruct dims; [congruence | cbn; lia]).
  induction rows as [|r t IH]; intros lvl Hwf; cbn [fold_left].
  - split; auto.
  - pose proof (insert_path_spec (row_path dims r) lvl (r_metrics r)) as Hins.
    rewrite length_row_path in Hins.
    destruct (Hins H1 Hwf) as [Hw Hq].
    destruct (IH _ Hw) as [Hw' Hq']. split; [exact Hw'|].
    intros q Hl. rewrite (Hq' q Hl), (Hq q Hl). reflexivity.
Qed.

Lemma build_spec dims (Hd : dims <> []) rows :
  wf_level (length dims) (build_hierarchy dims rows) /\
  forall q, (length q <= length dims)%nat ->
    option_map info (node_at (build_hierarchy dims rows) q) =
    fold_left (path_step dims q) rows None.
Proof.
  destruct (fold_insert_spec dims Hd rows [] ltac:(destruct (length dims); constructor))
    as [Hw Hq].
  unfold build_hierarchy.
  split; [exact Hw|]. intros q Hl. rewrite (Hq q Hl), node_at_empty. reflexivity.
Qed.

(** A node found in the tree is the fold of the rows on its path. *)
Lemma node_at_build dims (Hd : dims <> []) rows q nd :
  node_at (build_hierarchy dims rows) q = Some nd ->
  q <> [] /\ fold_left (path_step dims q) rows None = Some (info nd).
Proof.
  intros Hn. destruct (build_spec dims Hd rows) as [Hw Hq].
  assert (Hne : q <> []) by (intro; subst; discriminate).
  split; [exact Hne|].
  destruct (Nat.le_gt_cases (length q) (length dims)) as [Hl|Hl].
  - rewrite <- (Hq q Hl), Hn. reflexivity.
  - destruct dims as [|d0 ds]; [congruence|].
    rewrite (node_at_deep q (length ds) _ Hw Hl) in Hn. discriminate.
Qed.

Lemma base_upd o m : meq (base (Some (upd o m))) (madd (base o) m).
Proof.
  destruct o as [[m0 d0]|]; cbn; [reflexivity|]. symmetry. apply madd_zero_l.
Qed.

Lemma fold_path_sums dims q rows :
  forall acc0,
  meq (base (fold_left (path_step dims q) rows acc0))
      (madd (base acc0)
        (msum (map r_metrics (filter (fun r => hit q (map snd (row_path dims r))) rows)))).
Proof.
  induction rows as [|r t IH]; intros acc0; cbn [fold_left filter].
  - cbn. symmetry. apply madd_zero_r.
  - unfold path_step at 2. destruct (hit q (map snd (row_path dims r))).
    + rewrite IH, base_upd. cbn [map msum fold_right]. apply madd_assoc.
    + apply IH.
Qed.

Lemma total_assign (lvl : level) v x m :
  meq (n_metrics x)
      (madd (match Py.get v lvl with None => mzero | Some y => n_metrics y end) m) ->
  meq (level_total (Py.assign v x lvl)) (madd (level_total lvl) m).
Proof.
  induction lvl as [|[k y] t IH]; cbn.
  - intros Hx. msolve.
  - destruct (String.eqb v k); cbn; intros Hx.
    + msolve.
    + rewrite (IH Hx). symmetry. apply madd_assoc.
Qed.

Lemma step_node_metrics lvl d v m b :
  n_metrics (step_node lvl d v m b) =
  match Py.get v lvl with None => m | Some y => madd (n_metrics y) m end.
Proof. unfold step_node. destruct (Py.get v lvl); reflexivity. Qed.

Lemma step_node_meq lvl d v m b :
  meq (n_metrics (step_node lvl d v m b))
      (madd (match Py.get v lvl with None => mzero | Some y => n_metrics y end) m).
Proof.
  rewrite step_node_metrics. destruct (Py.get v lvl); [reflexivity|].
  symmetry; apply madd_zero_l.
Qed.

Lemma level_total_insert (p : list (string * string)) lvl m :
  (1 <= length p)%nat -> wf_level (length p) lvl ->
  meq (level_total (insert_path lvl p m)) (madd (level_total lvl) m).
Proof.
  destruct p as [|[d v] rest]; intros H1 Hwf; [cbn in H1; lia|].
  destruct rest as [|r1 rest'].
  - apply total_assign. apply (step_node_meq lvl d v m true).
  - rewrite (insert_path_inner lvl d v (r1 :: rest') m) by discriminate.
    assert (Hc : exists ch, n_children (step_node lvl d v m false) = Some ch).
    { unfold step_node. destruct (Py.get v lvl) as [nd0|] eqn:G; cbn; [|eauto].
      destruct (wf_inner_get (length rest') lvl v nd0 Hwf G) as (ch & Hc & _). eauto. }
    destruct Hc as [ch Hc]. rewrite Hc.
    apply total_assign. apply (step_node_meq lvl d v m false).
Qed.

Lemma fold_level_total dims (Hd : dims <> []) rows :
  forall lvl, wf_level (length dims) lvl ->
  meq (level_total (fold_left (fun h r => insert_path h (row_path dims r) (r_metrics r)) rows lvl))
      (madd (level_total lvl) (msum (map r_metrics rows))).
Proof.
  assert (H1 : (1 <= length dims)%nat) by (destruct dims; [congruence | cbn; lia]).
  induction rows as [|r t IH]; intros lvl Hwf; cbn [fold_left].
  - cbn. symmetry; apply madd_zero_r.
  - pose proof (insert_path_spec (row_path dims r) lvl (r_metrics r)) as Hins.
    rewrite length_row_path in Hins. destruct (Hins H1 Hwf) as [Hw _].
    rewrite (IH _ Hw).
    pose proof (level_total_insert (row_path dims r) lvl (r_metrics r)) as Ht.
    rewrite length_row_path in Ht. rewrite (Ht H1 Hwf).
    cbn [map msum fold_right]. apply madd_assoc.
Qed.

Lemma roi_of_pos rev sp : 0 < sp -> roi_of rev sp == (rev - sp) / sp.
Proof.
  intros H. unfold roi_of. destruct (Qle_bool sp 0) eqn:E; [|reflexivity].
  apply Qle_bool_iff in E. lra.
Qed.

Lemma roi_of_zero rev sp : sp == 0 -> roi_of rev sp == 0.
Proof.
  intros H. unfold roi_of. destruct (Qle_bool sp 0) eqn:E; [reflexivity|].
  assert (sp <= 0) by lra. apply Qle_bool_iff in H0. congruence.
Qed.

Lemma ratios_ok_upd o m : ratios_ok (upd o m).
Proof.
  assert (Hc : forall mm : metrics,
            ratios_ok (mm, create_derived mm) /\ ratios_ok (mm, acc_derived mm)).
  { intros mm. split.
    - unfold ratios_ok, create_derived; cbn. rewrite !or1_max.
      repeat split; intros;
        first [reflexivity | apply roi_of_pos; assumption | apply roi_of_zero; assumption].
    - unfold ratios_ok, acc_derived; cbn.
      repeat split; intros;
        first [reflexivity | rewrite or1_max; reflexivity
              | apply roi_of_pos; assumption | apply roi_of_zero; assumption
              | match goal with Hz : _ <> 0%N |- _ =>
                  rewrite (or1_nz _ Hz), or1_max; reflexivity end]. }
  destruct o as [[m0 d0]|]; [apply (Hc (madd m0 m)) | apply (Hc m)].
Qed.

Lemma fold_ratios_ok dims q rows :
  forall acc0, (forall i, acc0 = Some i -> ratios_ok i) ->
  forall i, fold_left (path_step dims q) rows acc0 = Some i -> ratios_ok i.
Proof.
  induction rows as [|r t IH]; intros acc0 H0; cbn [fold_left]; [exact H0|].
  apply IH. unfold path_step. destruct (hit q (map snd (row_path dims r))); [|exact H0].
  intros i [= <-]. apply ratios_ok_upd.
Qed.

End HierarchyFacts.

(** ** Claims on the hierarchy of [/api/dashboard/hierarchy] *)
Module HierarchyClaims.
Import Hierarchy HierarchyFacts.

(** The example of the specification: [A/X] with 10 impressions and [A/Y]
    with 5, grouped by [platform, offer]. *)
Example spec_example_A :
  option_map (fun nd => impressions (n_metrics nd))
    (node_at (build_hierarchy ["platform"; "offer"]
                [mrow "A" "X" (imp_only 10); mrow "A" "Y" (imp_only 5)]) ["A"])
  = Some 15%N.
Proof. reflexivity. Qed.

(** Null and empty dimension values share the ["Unknown"] node. *)
Example unknown_key :
  option_map (fun nd => impressions (n_metrics nd))
    (node_at (build_hierarchy ["platform"]
                [mkRow [("Media", None)] (imp_only 2);
                 mkRow [("Media", Some "")] (imp_only 3);
                 mkRow [] (imp_only 4)]) ["Unknown"])
  = Some 9%N.
Proof. reflexivity. Qed.

End HierarchyClaims.

(** C1. Conservation: for a non-empty dimension list, every node of the
    tree built from the rows carries the elementwise sum of the metrics of
    exactly the rows whose key path (null or empty values read as
    ["Unknown"]) starts with the node's path, and the top-level nodes
    together carry the elementwise sum of all rows. *)
Theorem hierarchy_conservation (dims : list string) (rows : list Hierarchy.flat_row) :
  dims <> [] ->
  (forall q nd,
     Hierarchy.node_at (Hierarchy.build_hierarchy dims rows) q = Some nd ->
     meq (Hierarchy.n_metrics nd)
         (msum (map Hierarchy.r_metrics (Hierarchy.rows_under dims q rows)))) /\
  meq (Hierarchy.level_total (Hierarchy.build_hierarchy dims rows))
      (msum (map Hierarchy.r_metrics rows)).
Proof.
  intros Hd. split.
  - intros q nd Hn.
    destruct (HierarchyFacts.node_at_build dims Hd rows q nd Hn) as [Hne Hf].
    pose proof (HierarchyFacts.fold_path_sums dims q rows None) as Hs.
    rewrite Hf in Hs. cbn [Hierarchy.base Hierarchy.info] in Hs.
    rewrite madd_zero_l in Hs.
    destruct q as [|k q']; [congruence|]. exact Hs.
  - unfold Hierarchy.build_hierarchy.
    assert (H0 : Hierarchy.wf_level (length dims) []) by (destruct (length dims); constructor).
    rewrite (HierarchyFacts.fold_level_total dims Hd rows [] H0).
    apply madd_zero_l.
Qed.

Lemma hierarchy_conservation_witness :
  ["platform"; "offer"] <> [] /\
  meq (Hierarchy.level_total
         (Hierarchy.build_hierarchy ["platform"; "offer"]
            [Hierarchy.mrow "A" "X" (Hierarchy.imp_only 10);
             Hierarchy.mrow "A" "Y" (Hierarchy.imp_only 5)]))
      (msum (map Hierarchy.r_metrics
            [Hierarchy.mrow "A" "X" (Hierarchy.imp_only 10);
             Hierarchy.mrow "A" "Y" (Hierarchy.imp_only 5)])).
Proof.
  split; [discriminate|].
  apply (hierarchy_conservation ["platform"; "offer"]
           [Hierarchy.mrow "A" "X" (Hierarchy.imp_only 10);
            Hierarchy.mrow "A" "Y" (Hierarchy.imp_only 5)]).
  discriminate.
Defined.

(** C2 (as amended). Every node's ratios are those of its own accumulated
    sums, whatever the number of rows folded into it: [profit = revenue -
    spend], [cpa = spend / max(conversions, 1)], [roi = profit / spend] when
    [spend > 0] and [roi = 0] when [spend = 0]; [ctr = clicks /
    max(impressions, 1)] when the node's clicks are non-zero and [cvr =
    conversions / max(clicks, 1)] when its conversions are non-zero. *)
Theorem hierarchy_ratios_from_sums (dims : list string) (rows : list Hierarchy.flat_row)
  (q : list string) (nd : Hierarchy.node) :
  dims <> [] ->
  Hierarchy.node_at (Hierarchy.build_hierarchy dims rows) q = Some nd ->
  let m := Hierarchy.n_metrics nd in
  let dv := Hierarchy.n_derived nd in
  Hierarchy.profit dv == revenue m - spend m /\
  Hierarchy.cpa dv == spend m / Py.QN (N.max (conversions m) 1) /\
  (0 < spend m -> Hierarchy.roi dv == (revenue m - spend m) / spend m) /\
  (spend m == 0 -> Hierarchy.roi dv == 0) /\
  (clicks m <> 0%N ->
     Hierarchy.ctr dv == Py.QN (clicks m) / Py.QN (N.max (impressions m) 1)) /\
  (conversions m <> 0%N ->
     Hierarchy.cvr dv == Py.QN (conversions m) / Py.QN (N.max (clicks m) 1)).
Proof.
  intros Hd Hn.
  destruct (HierarchyFacts.node_at_build dims Hd rows q nd Hn) as [_ Hf].
  exact (HierarchyFacts.fold_ratios_ok dims q rows None
           ltac:(discriminate) (Hierarchy.info nd) Hf).
Qed.

Lemma hierarchy_ratios_from_sums_witness :
  exists nd,
    Hierarchy.node_at
      (Hierarchy.build_hierarchy ["platform"; "offer"]
         [Hierarchy.mrow "A" "X" (mkMetrics 10 2 1 4 6 0 0 0);
          Hierarchy.mrow "A" "Y" (mkMetrics 5 1 0 1 0 0 0 0)]) ["A"] = Some nd /\
    Hierarchy.profit (Hierarchy.n_derived nd)
      == revenue (Hierarchy.n_metrics nd) - spend (Hierarchy.n_metrics nd).
Proof.
  eexists. split; [reflexivity|].
  apply (hierarchy_ratios_from_sums ["platform"; "offer"]
           [Hierarchy.mrow "A" "X" (mkMetrics 10 2 1 4 6 0 0 0);
            Hierarchy.mrow "A" "Y" (mkMetrics 5 1 0 1 0 0 0 0)] ["A"]);
    [discriminate | reflexivity].
Defined.

(** C2 as stated fails.  Two all-zero rows under [A]: the accumulation
    branch reads [clicks or 1] as the numerator, so the node's [ctr] is 1,
    not 0.  One row under [B] with revenue 5 and no spend: [roi] is 0 by
    the [spend > 0] guard, not [profit / max(spend, 1) = 5]. *)
Lemma hierarchy_ratios_counterexample :
  exists ndA ndB,
    let h := Hierarchy.build_hierarchy ["platform"]
               [Hierarchy.mkRow [("Media", Some "A")] mzero;
                Hierarchy.mkRow [("Media", Some "A")] mzero;
                Hierarchy.mkRow [("Media", Some "B")] (mkMetrics 0 0 0 0 5 0 0 0)] in
    Hierarchy.node_at h ["A"] = Some ndA /\
    Hierarchy.node_at h ["B"] = Some ndB /\
    ~ (Hierarchy.ctr (Hierarchy.n_derived ndA) == Reference.ctr (Hierarchy.n_metrics ndA)) /\
    ~ (Hierarchy.roi (Hierarchy.n_derived ndB) == Reference.roi (Hierarchy.n_metrics ndB)).
Proof.
  do 2 eexists. cbv zeta. split; [reflexivity|]. split; [reflexivity|].
  split; vm_compute; discriminate.
Qed.

(** ** Row formatter *)
Module FormatterFacts.
Import Formatter.

Lemma QN_or1_nonzero n : ~ (Py.QN (Py.or1 n) == 0).
Proof.
  unfold Py.QN, Py.or1. destruct (N.eqb_spec n 0) as [_|Hn].
  - discriminate.
  - unfold Qeq; cbn. lia.
Qed.

Lemma py_div_or1 x n : py_div x (Py.QN (Py.or1 n)) = Some (x / Py.QN (Py.or1 n)).
Proof.
  unfold py_div. destruct (Qeq_bool _ 0) eqn:E; [|reflexivity].
  apply Qeq_bool_eq in E. exfalso. exact (QN_or1_nonzero n E).
Qed.

Lemma py_div_or1f x y : py_div x (or1f y) = Some (x / or1f y).
Proof.
  unfold py_div, or1f. destruct (Qeq_bool y 0) eqn:Ey; [reflexivity|].
  rewrite Ey. reflexivity.
Qed.

Lemma get_float_some q : get_float (Some q) == q.
Proof.
  unfold get_float, truthy. destruct (Qeq_bool q 0) eqn:E; cbn; [|reflexivity].
  apply Qeq_bool_eq in E. rewrite E. reflexivity.
Qed.

Lemma or1f_get_float q : or1f (get_float (Some q)) = or1f q.
Proof.
  unfold or1f, get_float, truthy. destruct (Qeq_bool q 0) eqn:E; cbn; [|rewrite E; reflexivity].
  reflexivity.
Qed.

End FormatterFacts.

(** C5 (as amended). For every MetricTuple the formatter returns (never
    raises) and computes every ratio with a zero count denominator read as
    1, i.e. over [max(count, 1)]: [ctr = clicks / max(impressions, 1)],
    [cvr = conversions / max(clicks, 1)], [cpa], [rpa] over
    [max(conversions, 1)], [epc] over [max(clicks, 1)], [epv] over
    [max(impressions, 1)], [m_epc], [m_cpc] over [max(m_clicks, 1)] and
    [m_epv], [m_cpv] over [max(m_imp, 1)]; the spend denominator of [roi]
    is [spend or 1]: 1 when spend is 0 and spend itself otherwise. *)
Theorem format_row_ratios (t : metrics) :
  exists f,
    Formatter.format_row_for_frontend (Formatter.row_of_tuple t) = Some f /\
    Formatter.o_ctr f == Py.QN (clicks t) / Py.QN (N.max (impressions t) 1) /\
    Formatter.o_cvr f == Py.QN (conversions t) / Py.QN (N.max (clicks t) 1) /\
    Formatter.o_roi f ==
      (revenue t - spend t) / (if Qeq_bool (spend t) 0 then 1 else spend t) /\
    Formatter.o_cpa f == spend t / Py.QN (N.max (conversions t) 1) /\
    Formatter.o_rpa f == revenue t / Py.QN (N.max (conversions t) 1) /\
    Formatter.o_epc f == revenue t / Py.QN (N.max (clicks t) 1) /\
    Formatter.o_epv f == revenue t / Py.QN (N.max (impressions t) 1) /\
    Formatter.o_m_epc f == revenue t / Py.QN (N.max (m_clicks t) 1) /\
    Formatter.o_m_epv f == revenue t / Py.QN (N.max (m_imp t) 1) /\
    Formatter.o_m_cpc f == spend t / Py.QN (N.max (m_clicks t) 1) /\
    Formatter.o_m_cpv f == spend t / Py.QN (N.max (m_imp t) 1).
Proof.
  unfold Formatter.format_row_for_frontend, Formatter.row_of_tuple; cbn [Formatter.f_impressions
    Formatter.f_clicks Formatter.f_conversions Formatter.f_spend Formatter.f_total_revenue
    Formatter.f_revenue Formatter.f_m_imp Formatter.f_m_clicks Formatter.f_m_conv
    Formatter.get_int Formatter.truthy].
  rewrite !FormatterFacts.py_div_or1, FormatterFacts.py_div_or1f.
  cbn [Formatter.bind]. eexists. split; [reflexivity|]. cbn.
  rewrite !or1_max. unfold Formatter.or1f.
  destruct (Qeq_bool (spend t) 0) eqn:Es; destruct (Qeq_bool (revenue t) 0) eqn:Er;
    cbn [negb]; try apply Qeq_bool_eq in Es; try apply Qeq_bool_eq in Er;
    repeat split; rewrite ?Es, ?Er; reflexivity.
Qed.

(** C5 as stated fails on a fractional spend: with spend 0.5 and revenue 1
    the formatter's [roi] is [0.5 / 0.5 = 1], not [0.5 / max(0.5, 1)]. *)
Lemma format_row_ratios_counterexample :
  exists f,
    Formatter.format_row_for_frontend
      (Formatter.row_of_tuple (mkMetrics 0 0 0 (1 # 2) 1 0 0 0)) = Some f /\
    ~ (Formatter.o_roi f == Reference.roi (mkMetrics 0 0 0 (1 # 2) 1 0 0 0)).
Proof.
  eexists. split; [reflexivity|]. vm_compute. discriminate.
Qed.

(** ** Permission filters *)

(** C8: [build_permission_filter] returns [None] exactly when the role is
    admin, the keyword list is empty or the role is none of ops, ops02,
    business; otherwise it returns the case-insensitive contains-any filter
    on Adset (ops), Media (ops02) or offer (business). *)
Theorem build_permission_filter_contract (role : string) (kws : list string) :
  (Permissions.build_permission_filter role kws = None <->
     role = "admin" \/ kws = [] \/ ~ In role ["ops"; "ops02"; "business"]) /\
  (kws <> [] ->
     (role = "ops" -> Permissions.build_permission_filter role kws
                      = Some (Permissions.like_any "Adset" kws)) /\
     (role = "ops02" -> Permissions.build_permission_filter role kws
                        = Some (Permissions.like_any "Media" kws)) /\
     (role = "business" -> Permissions.build_permission_filter role kws
                           = Some (Permissions.like_any "offer" kws))).
Proof.
  unfold Permissions.build_permission_filter.
  split.
  - destruct (String.eqb_spec role "admin") as [Ha|Ha]; cbn [orb].
    + subst. split; auto.
    + destruct kws as [|k ks]; cbn [Permissions.is_empty orb].
      * split; auto.
      * destruct (String.eqb_spec role "ops") as [Ho|Ho];
        [subst; split; [discriminate|]; intros [H|[H|H]];
          [congruence|discriminate|exfalso; apply H; cbn; tauto]|].
        destruct (String.eqb_spec role "ops02") as [Ho2|Ho2];
        [subst; split; [discriminate|]; intros [H|[H|H]];
          [congruence|discriminate|exfalso; apply H; cbn; tauto]|].
        destruct (String.eqb_spec role "business") as [Hb|Hb];
        [subst; split; [discriminate|]; intros [H|[H|H]];
          [congruence|discriminate|exfalso; apply H; cbn; tauto]|].
        split; [intros _; right; right; cbn; intuition congruence|reflexivity].
  - intros Hk. destruct kws as [|k ks]; [congruence|].
    repeat split; intros ->; reflexivity.
Qed.

(** C10: in the daily-report router, for a non-empty keyword list, role ops
    gets the contains-any filter on the Media column (not Adset), and roles
    ops02 and business get no filter at all. *)
Theorem daily_permission_filter_divergence (role : string) (kws : list string)
  (Hk : kws <> []) :
  (role = "ops" -> Permissions.daily_build_permission_filter role kws
                   = Some (Permissions.like_any "Media" kws) /\
                   Permissions.build_permission_filter role kws
                   = Some (Permissions.like_any "Adset" kws)) /\
  (role = "ops02" \/ role = "business" ->
     Permissions.daily_build_permission_filter role kws = None).
Proof.
  destruct kws as [|k ks]; [congruence|].
  split.
  - intros ->. split; reflexivity.
  - intros [-> | ->]; reflexivity.
Qed.

Lemma daily_permission_filter_divergence_witness :
  ["x"] <> [] /\
  ((("ops02" = "ops" -> Permissions.daily_build_permission_filter "ops02" ["x"]
                   = Some (Permissions.like_any "Media" ["x"]) /\
                   Permissions.build_permission_filter "ops02" ["x"]
                   = Some (Permissions.like_any "Adset" ["x"])) /\
   ("ops02" = "ops02" \/ "ops02" = "business" ->
     Permissions.daily_build_permission_filter "ops02" ["x"] = None))).
Proof.
  split; [discriminate|].
  apply (daily_permission_filter_divergence "ops02" ["x"]). discriminate.
Defined.

(** ** TwoPassMerger *)
Module TwoPassFacts.
Import TwoPass.

Lemma get_fold_lookup (k : string) (l : list row) acc :
  Py.get k (fold_left lookup_step l acc) =
  match Py.get k acc with
  | Some v => Some v
  | None => option_map lander (find (fun r2 => String.eqb (_make_merge_key r2) k) l)
  end.
Proof.
  revert acc. induction l as [|r l IH]; intros acc; cbn [fold_left find].
  - destruct (Py.get k acc); reflexivity.
  - rewrite IH. unfold lookup_step.
    destruct (String.eqb_spec (_make_merge_key r) k) as [E|E].
    + subst k. destruct (Py.get (_make_merge_key r) acc) eqn:G; [now rewrite G|].
      rewrite PyFacts.get_assign_same. reflexivity.
    + destruct (Py.get (_make_merge_key r) acc) eqn:G; [reflexivity|].
      rewrite PyFacts.get_assign_other by congruence. reflexivity.
Qed.

Lemma get_build_lookup (p2 : list row) (r : row) :
  Py.get (_make_merge_key r) (build_lookup p2) =
  option_map lander
    (find (fun r2 => String.eqb (_make_merge_key r2) (_make_merge_key r)) p2).
Proof. unfold build_lookup. rewrite get_fold_lookup. reflexivity. Qed.

Lemma merge_row_spec (p2 : list row) (r : row) :
  merge_row (build_lookup p2) r =
  Py.assign "landingName" (snd (first_lander p2 r))
    (Py.assign "landingID" (fst (first_lander p2 r)) r).
Proof.
  unfold merge_row, first_lander. rewrite get_build_lookup.
  destruct (find _ p2); reflexivity.
Qed.

End TwoPassFacts.

(** C7: with an empty pass2 the merge returns pass1 unchanged; otherwise it
    returns one row per pass1 row, in order, whose landingID / landingName
    are those of the first pass2 row with an equal 9-field composite key
    (missing fields read as the empty string), or empty strings when no pass2
    row matches, all other fields unchanged.  The merge is a total function:
    it never errors. *)
Theorem merge_two_pass_contract (pass1 pass2 : list TwoPass.row) :
  (pass2 = [] -> TwoPass.merge_two_pass_data pass1 pass2 = pass1) /\
  length (TwoPass.merge_two_pass_data pass1 pass2) = length pass1 /\
  (pass2 <> [] ->
   forall i r, nth_error pass1 i = Some r ->
   exists r', nth_error (TwoPass.merge_two_pass_data pass1 pass2) i = Some r' /\
     Py.get "landingID" r' = Some (fst (TwoPass.first_lander pass2 r)) /\
     Py.get "landingName" r' = Some (snd (TwoPass.first_lander pass2 r)) /\
     (forall k, k <> "landingID" -> k <> "landingName" -> Py.get k r' = Py.get k r)).
Proof.
  split; [intros ->; reflexivity|].
  split.
  - destruct pass2; [reflexivity|]. apply length_map.
  - intros Hp i r Hi. destruct pass2 as [|r0 p2]; [congruence|].
    unfold TwoPass.merge_two_pass_data.
    rewrite nth_error_map, Hi. cbn [option_map].
    eexists. split; [reflexivity|].
    rewrite TwoPassFacts.merge_row_spec.
    split; [rewrite PyFacts.get_assign_other by discriminate; apply PyFacts.get_assign_same|].
    split; [apply PyFacts.get_assign_same|].
    intros k H1 H2. rewrite !PyFacts.get_assign_other by congruence. reflexivity.
Qed.

(** ** Hourly query window *)

(** C4 (failing input): start_date = 2026-01-01 (day 20454), timezone
    Asia/Shanghai (offset +8), queried on 2026-03-01 00:00 UTC.  The local
    day starts at 2025-12-31 16:00 UTC, but the code's window starts at
    2026-01-01 08:00 UTC and ends at 2026-01-02 07:59:59 UTC: the UTC hour
    2025-12-31 16:00 (local 00:00 of the selected day) is not selected, while
    the UTC hour 2026-01-01 20:00 (local 04:00 of the next day) is. *)
Theorem hourly_window_failing_input :
  let w := Hourly.query_window 20454 "Asia/Shanghai" (20513 * 86400) in
  w = (20454 * 86400 + 8 * 3600, 20455 * 86400 - 1 + 8 * 3600)%Z /\
  fst w <> (20454 * 86400 - 8 * 3600)%Z /\
  Hourly.selected w 20453 16 = false /\
  Hourly.local_hour "Asia/Shanghai" 16 = 0%Z /\
  Hourly.selected w 20454 20 = true /\
  Hourly.local_hour "Asia/Shanghai" 20 = 4%Z.
Proof. vm_compute. repeat split; discriminate. Qed.

(** ** SpendCorrectionLedger *)
Module DailyReportFacts.
Import DailyReport.

(** What the delete does respect: a locked row is never deleted or modified
    by a sync. *)
Lemma sync_keeps_locked_rows role user sd ed source table t r :
  sync_data_from_performance role user sd ed source table = inr t ->
  In r table -> dr_is_locked r = true -> In r t.
Proof.
  unfold sync_data_from_performance. destruct (negb (may_write role)); [discriminate|].
  intros H Hin Hl. injection H as <-. apply in_or_app. left.
  apply filter_In. split; [exact Hin|]. rewrite Hl, andb_false_r. reflexivity.
Qed.

End DailyReportFacts.

(** C3 (failing input): day 2026-01-01 (day 20454) has one Google source row
    with spend 100.  Sync the day, set its final spend to 120, lock the day,
    sync it again: the locked row is kept, but the second sync inserts a
    second, unlocked row for (2026-01-01, Google) with spend_final 100, so the
    table holds two rows for that key and their spend_final sums to 220. *)
Theorem sync_after_lock_adds_row :
  match DailyReport.lock_scenario 20454 "Google" 120
          [DailyReport.mkSource 20454 "Google" (mkMetrics 1000 50 5 100 150 0 0 0)] with
  | inr t =>
      let rows := filter (DailyReport.same_key 20454 "Google") t in
      length rows = 2%nat /\
      map DailyReport.dr_is_locked rows = [true; false] /\
      map DailyReport.dr_spend_final rows = [120; 100] /\
      fold_right Qplus 0 (map DailyReport.dr_spend_final rows) == 220
  | inl _ => False
  end.
Proof. vm_compute. repeat split; reflexivity. Qed.

(** ** Hourly ETL refresh *)
Module HourlyETLFacts.
Import HourlyETL.

Lemma fetch_loop_state rs ps kws_fuel page acc s :
  snd (fetch_loop rs ps kws_fuel page acc s) = s.
Proof.
  revert page acc. induction kws_fuel as [|f IH]; intros page acc; cbn [fetch_loop].
  - reflexivity.
  - destruct (rs page) as [[|it its]|]; try reflexivity.
    destruct (Nat.ltb _ ps); [reflexivity|apply IH].
Qed.

Lemma fetch_state rs ps mp s : snd (_fetch_api_data rs ps mp s) = s.
Proof. apply fetch_loop_state. Qed.

End HourlyETLFacts.

(** C9: the hourly refresh first runs the API fetch, which leaves the table
    and the command log untouched.  If the fetch raises, the run raises the
    same exception with the state unchanged: no delete and no insert are
    issued.  If it succeeds, the run issues exactly one timestamp-range
    delete of the window and then the insert of the transformed rows (none
    when there are no rows), in that order. *)
Theorem hourly_etl_fetch_before_delete (responses : nat -> option (list HourlyETL.api_item))
  (PAGE_SIZE max_pages : nat) (kws : list string) (utc_now test_hours : Z)
  (st : HourlyETL.state) :
  let w := HourlyETL.window utc_now test_hours in
  match HourlyETL._fetch_api_data responses PAGE_SIZE max_pages st with
  | (inl e, _) =>
      HourlyETL.run responses PAGE_SIZE max_pages kws utc_now test_hours st = (inl e, st)
  | (inr raw, _) =>
      exists st',
      HourlyETL.run responses PAGE_SIZE max_pages kws utc_now test_hours st = (inr true, st') /\
      HourlyETL.commands st' =
        (HourlyETL.commands st ++ [HourlyETL.Delete (fst w) (snd w)] ++
         match HourlyETL._transform_data kws raw with
         | [] => []
         | d => [HourlyETL.Insert d]
         end)%list
  end.
Proof.
  cbv zeta. unfold HourlyETL.run.
  destruct (HourlyETL.window utc_now test_hours) as [sd ed]. cbn [fst snd].
  pose proof (HourlyETLFacts.fetch_state responses PAGE_SIZE max_pages st) as Hs.
  unfold HourlyETL.mbind. cbv beta.
  set (F := HourlyETL._fetch_api_data responses PAGE_SIZE max_pages st) in *.
  clearbody F. destruct F as [[e|raw] s1]; cbn in Hs; subst s1.
  - reflexivity.
  - destruct (HourlyETL._transform_data kws raw) as [|r rs] eqn:Et;
      eexists; split; try reflexivity; cbn; rewrite ?app_nil_r, <- ?app_assoc; reflexivity.
Qed.

(** ** CostDataMerger *)
Module MtgMergeFacts.
Import MtgMerge.

Section Keys.
Variable kws : list string.
Variable rd : option string.

Lemma alloc_row_id a c t r : c_AdsetID (alloc_row a c t r) = c_AdsetID r.
Proof. unfold alloc_row. destruct (N.eqb t 0); reflexivity. Qed.

Lemma alloc_row_media a c t r : c_Media (alloc_row a c t r) = c_Media r.
Proof. unfold alloc_row. destruct (N.eqb t 0); reflexivity. Qed.

Lemma has_id_true k r : has_id k r = true -> c_AdsetID r = k.
Proof. unfold has_id. apply String.eqb_eq. Qed.

Lemma filter_map_fix (p : cf_row -> bool) (g : cf_row -> cf_row) (l : list cf_row) :
  (forall r, In r l -> p (g r) = p r /\ (p r = true -> g r = r)) ->
  filter p (map g l) = filter p l.
Proof.
  induction l as [|r l IH]; intros H; cbn; [reflexivity|].
  destruct (H r (or_introl eq_refl)) as [E1 E2]. rewrite E1.
  destruct (p r) eqn:Ep.
  - rewrite E2 by reflexivity. f_equal. apply IH. intros; apply H; now right.
  - apply IH. intros; apply H; now right.
Qed.

Lemma filter_map_comm (p : cf_row -> bool) (g : cf_row -> cf_row) (l : list cf_row) :
  (forall r, p (g r) = p r) -> filter p (map g l) = map g (filter p l).
Proof.
  intros H. induction l as [|r l IH]; cbn; [reflexivity|].
  rewrite H. destruct (p r); cbn; rewrite IH; reflexivity.
Qed.

Lemma filter_andb (p q : cf_row -> bool) (l : list cf_row) :
  filter (fun r => p r && q r) l = filter q (filter p l).
Proof.
  induction l as [|r l IH]; cbn; [reflexivity|].
  destruct (p r) eqn:Ep, (q r) eqn:Eq; cbn; rewrite ?Ep, ?Eq, ?IH; reflexivity.
Qed.

Lemma step_other (k k' : string) a s :
  k' <> k -> proj k (merge_step kws rd s (k', a)) = proj k s.
Proof.
  intros Hne. destruct s as [cf nr]. unfold merge_step, proj; cbn [fst snd].
  destruct (filter (has_id k') cf) as [|m ms] eqn:E1.
  - cbn [fst snd]. rewrite filter_app. cbn.
    unfold has_id at 3; cbn. destruct (String.eqb_spec k' k); [congruence|].
    rewrite app_nil_r. reflexivity.
  - destruct (filter (is_special kws) (m :: ms)) as [|sp sps]; [reflexivity|].
    cbn [fst snd]. f_equal. apply filter_map_fix. intros r _.
    destruct (has_id k' r && is_special kws r) eqn:E.
    + split.
      * unfold has_id. rewrite alloc_row_id. reflexivity.
      * intros Hk. apply andb_true_iff in E as [E _].
        apply has_id_true in E, Hk. congruence.
    + split; reflexivity.
Qed.

Lemma fold_other (k : string) (l : list (string * agg)) s :
  ~ In k (map fst l) -> proj k (fold_left (merge_step kws rd) l s) = proj k s.
Proof.
  revert s. induction l as [|[k' a] l IH]; intros s Hn; cbn [fold_left]; [reflexivity|].
  rewrite IH.
  - apply step_other. intros ->. apply Hn. now left.
  - intros Hi. apply Hn. now right.
Qed.

Lemma step_same (k : string) a s :
  proj k (merge_step kws rd s (k, a)) = step_proj kws rd k a (proj k s).
Proof.
  destruct s as [cf nr]. unfold merge_step, proj, step_proj; cbn [fst snd].
  destruct (filter (has_id k) cf) as [|m ms] eqn:E1; cbn [fst snd].
  - rewrite filter_app. cbn [filter].
    assert (Hn : has_id k (new_row rd k a) = true)
      by (unfold has_id; cbn; apply String.eqb_refl).
    rewrite Hn, E1. reflexivity.
  - destruct (filter (is_special kws) (m :: ms)) as [|sp sps] eqn:E2; cbn [fst snd];
      [rewrite E1; reflexivity|].
    f_equal.
    rewrite filter_map_comm.
    + rewrite E1. apply map_ext_in. intros r Hr.
      assert (Hk : has_id k r = true).
      { rewrite <- E1 in Hr. apply filter_In in Hr. apply Hr. }
      rewrite Hk. reflexivity.
    + intros r. destruct (has_id k r && is_special kws r); [|reflexivity].
      unfold has_id. rewrite alloc_row_id. reflexivity.
Qed.

End Keys.

Lemma in_keys_assign {V} (k x : string) (v : V) d :
  In x (map fst (Py.assign k v d)) <-> x = k \/ In x (map fst d).
Proof.
  induction d as [|[k' v'] d IH]; cbn.
  - intuition congruence.
  - destruct (String.eqb_spec k k'); cbn.
    + subst. intuition congruence.
    + rewrite IH. intuition congruence.
Qed.

Lemma nodup_assign {V} (k : string) (v : V) d :
  NoDup (map fst d) -> NoDup (map fst (Py.assign k v d)).
Proof.
  induction d as [|[k' v'] d IH]; cbn; intros H.
  - constructor; [intros []|constructor].
  - inversion H as [|? ? Hn Hd]; subst.
    destruct (String.eqb_spec k k'); cbn.
    + subst. constructor; assumption.
    + constructor; [|apply IH, Hd].
      rewrite in_keys_assign. intros [Hx|Hx]; [congruence|contradiction].
Qed.

Lemma aggregate_nodup mtg : NoDup (map fst (aggregate mtg)).
Proof.
  unfold aggregate.
  assert (H : forall acc, NoDup (map fst acc) ->
                          NoDup (map fst (fold_left aggregate_step mtg acc))).
  { induction mtg as [|t mtg IH]; intros acc Ha; cbn; [assumption|].
    apply IH. unfold aggregate_step.
    destruct (_ || _); [assumption|]. apply nodup_assign, Ha. }
  apply H. constructor.
Qed.

Lemma get_split {V} (k : string) (a : V) l :
  Py.get k l = Some a -> NoDup (map fst l) ->
  exists l1 l2, l = (l1 ++ (k, a) :: l2)%list /\
                ~ In k (map fst l1) /\ ~ In k (map fst l2).
Proof.
  induction l as [|[k' v] l IH]; cbn; [discriminate|].
  intros Hg Hn. inversion Hn as [|? ? Hk' Hd]; subst.
  destruct (String.eqb_spec k k').
  - injection Hg as <-. subst k'. exists [], l. repeat split; auto.
  - destruct (IH Hg Hd) as (l1 & l2 & -> & H1 & H2).
    exists ((k', v) :: l1), l2. repeat split; auto.
    cbn. intros [Hx|Hx]; [congruence|contradiction].
Qed.

Lemma merge_proj kws cf mtg k a :
  Py.get k (aggregate mtg) = Some a ->
  filter (has_id k) (_merge_mtg_data_to_cf kws cf mtg) =
  (let p := step_proj kws (report_date_of cf) k a (filter (has_id k) cf, []) in
   fst p ++ snd p)%list.
Proof.
  intros Hg. destruct mtg as [|t ts]; [discriminate|].
  unfold _merge_mtg_data_to_cf.
  destruct (get_split _ _ _ Hg (aggregate_nodup _)) as (l1 & l2 & El & H1 & H2).
  rewrite El, fold_left_app. cbn [fold_left].
  set (rd := report_date_of cf).
  set (fin := fold_left (merge_step kws rd) l2
                (merge_step kws rd (fold_left (merge_step kws rd) l1 (cf, [])) (k, a))).
  assert (Hp : proj k fin = step_proj kws rd k a (filter (has_id k) cf, [])).
  { unfold fin. rewrite fold_other by exact H2. rewrite step_same.
    rewrite fold_other by exact H1. reflexivity. }
  clearbody fin. destruct fin as [cf' nr']. unfold proj in Hp. cbn [fst snd] in Hp.
  rewrite filter_app. rewrite <- Hp. reflexivity.
Qed.

Lemma QN_add m n : Py.QN (m + n) == Py.QN m + Py.QN n.
Proof. unfold Py.QN. rewrite N2Z.inj_add, inject_Z_plus. reflexivity. Qed.

Lemma QN_nonneg n : 0 <= Py.QN n.
Proof.
  unfold Py.QN. change 0 with (inject_Z 0). rewrite <- Zle_Qle. apply N2Z.is_nonneg.
Qed.

Lemma QN_of_nat n : Py.QN (N.of_nat n) = inject_Z (Z.of_nat n).
Proof. unfold Py.QN. rewrite nat_N_Z. reflexivity. Qed.

Lemma inject_succ n : inject_Z (Z.of_nat (S n)) == inject_Z (Z.of_nat n) + 1.
Proof. rewrite Nat2Z.inj_succ, <- Z.add_1_r, inject_Z_plus. reflexivity. Qed.

Lemma py_round_bound q : -(1#2) <= inject_Z (py_round q) - q <= 1#2.
Proof.
  unfold py_round.
  pose proof (Qfloor_le q) as Hl. pose proof (Qlt_floor q) as Hu.
  rewrite inject_Z_plus in Hu. change (inject_Z 1) with 1 in Hu.
  destruct (Qcompare_spec (q - inject_Z (Qfloor q)) (1 # 2)) as [E|E|E].
  - destruct (Z.even (Qfloor q)); rewrite ?inject_Z_plus;
      change (inject_Z 1) with 1; split; lra.
  - split; lra.
  - rewrite inject_Z_plus. change (inject_Z 1) with 1. split; lra.
Qed.

Lemma py_round_nonneg q : 0 <= q -> (0 <= py_round q)%Z.
Proof.
  intros Hq.
  assert (Hf : (0 <= Qfloor q)%Z).
  { pose proof (Qlt_floor q) as Hu.
    destruct (Z.le_gt_cases 0 (Qfloor q)) as [H|H]; [exact H|exfalso].
    assert (H' : (Qfloor q + 1 <= 0)%Z) by lia.
    rewrite Zle_Qle in H'. change (inject_Z 0) with 0 in H'. lra. }
  unfold py_round.
  destruct (Qcompare (q - inject_Z (Qfloor q)) (1 # 2)); [destruct (Z.even (Qfloor q))|..]; lia.
Qed.

Lemma QN_int_round q : 0 <= q -> Py.QN (int_round q) == inject_Z (py_round q).
Proof.
  intros Hq. unfold int_round, Py.QN. rewrite Z2N.id by (apply py_round_nonneg, Hq).
  reflexivity.
Qed.

Lemma round_sum (x : cf_row -> Q) (l : list cf_row) :
  (forall r, In r l -> 0 <= x r) ->
  -(inject_Z (Z.of_nat (length l)) * (1#2)) <=
     Py.QN (fold_right (fun r acc => (int_round (x r) + acc)%N) 0%N l) -
     fold_right (fun r acc => x r + acc) 0 l <=
  inject_Z (Z.of_nat (length l)) * (1#2).
Proof.
  induction l as [|r l IH]; intros Hx; cbn [fold_right length].
  - change (Py.QN 0) with 0. change (inject_Z (Z.of_nat 0)) with 0. split; lra.
  - rewrite QN_add, inject_succ, QN_int_round by (apply Hx; now left).
    pose proof (py_round_bound (x r)).
    destruct IH as [IH1 IH2]; [intros; apply Hx; now right|].
    split; lra.
Qed.

Lemma fold_const_Q (K : Q) (l : list cf_row) :
  fold_right (fun _ acc => K + acc) 0 l == inject_Z (Z.of_nat (length l)) * K.
Proof.
  induction l as [|r l IH]; cbn [fold_right length].
  - change (inject_Z (Z.of_nat 0)) with 0. ring.
  - rewrite IH, inject_succ. ring.
Qed.

Lemma sum_spend_even a c l :
  sum_spend (map (alloc_row a c 0) l) == inject_Z (Z.of_nat (length l)) * (a_spend a / Py.QN c).
Proof.
  rewrite <- fold_const_Q. induction l as [|r l IH]; cbn; [reflexivity|].
  rewrite IH. reflexivity.
Qed.

Lemma sum_spend_prop a c t l : t <> 0%N ->
  sum_spend (map (alloc_row a c t) l) == a_spend a * (Py.QN (sum_impressions l) / Py.QN t).
Proof.
  intros Ht. apply N.eqb_neq in Ht.
  induction l as [|r l IH]; cbn [map sum_spend fold_right sum_impressions].
  - change (Py.QN 0) with 0. unfold Qdiv. ring.
  - unfold alloc_row at 1. rewrite Ht. cbn [c_spend with_mtg].
    unfold sum_spend in IH. rewrite IH. unfold sum_impressions. rewrite QN_add.
    unfold Qdiv. ring.
Qed.

Section Counter.
Variable fc : cf_row -> N.
Variable fa : agg -> N.
Hypothesis Hf : forall a c t r,
  fc (alloc_row a c t r) =
  if N.eqb t 0 then (if N.ltb 0 c then int_round (Py.QN (fa a) / Py.QN c) else 0%N)
  else int_round (Py.QN (fa a) * (Py.QN (c_impressions r) / Py.QN t)).

Lemma counter_bound a l : l <> [] ->
  let c := N.of_nat (length l) in
  let t := sum_impressions l in
  -(inject_Z (Z.of_nat (length l)) * (1#2)) <=
     Py.QN (sum_m fc (map (alloc_row a c t) l)) - Py.QN (fa a) <=
  inject_Z (Z.of_nat (length l)) * (1#2).
Proof.
  intros Hl c t.
  set (x := fun r => if N.eqb t 0 then Py.QN (fa a) / Py.QN c
                     else Py.QN (fa a) * (Py.QN (c_impressions r) / Py.QN t)).
  assert (Hc : N.ltb 0 c = true).
  { apply N.ltb_lt. unfold c. destruct l; [congruence|]. cbn [length]. lia. }
  assert (Hs : forall l', sum_m fc (map (alloc_row a c t) l') =
               fold_right (fun r acc => (int_round (x r) + acc)%N) 0%N l').
  { unfold sum_m. induction l' as [|r l' IH]; cbn [map fold_right]; [reflexivity|].
    rewrite Hf, IH. unfold x. destruct (N.eqb t 0); [rewrite Hc|]; reflexivity. }
  assert (HX : fold_right (fun r acc => x r + acc) 0 l == Py.QN (fa a)).
  { unfold x. destruct (N.eqb t 0) eqn:Et.
    - rewrite fold_const_Q. unfold c. rewrite QN_of_nat.
      assert (Hn : ~ inject_Z (Z.of_nat (length l)) == 0).
      { rewrite <- QN_of_nat. unfold Py.QN. change 0 with (inject_Z 0).
        rewrite inject_Z_injective. apply N.ltb_lt in Hc. lia. }
      field. exact Hn.
    - apply N.eqb_neq in Et.
      assert (Hd : forall l', fold_right (fun r acc =>
                   Py.QN (fa a) * (Py.QN (c_impressions r) / Py.QN t) + acc) 0 l'
                   == Py.QN (fa a) * (Py.QN (sum_impressions l') / Py.QN t)).
      { induction l' as [|r l' IH]; cbn [fold_right sum_impressions].
        - change (Py.QN 0) with 0. unfold Qdiv. ring.
        - rewrite IH. unfold sum_impressions. rewrite QN_add. unfold Qdiv. ring. }
      rewrite Hd. fold t.
      assert (Hn : ~ Py.QN t == 0).
      { unfold Py.QN. change 0 with (inject_Z 0). rewrite inject_Z_injective. lia. }
      field. exact Hn. }
  rewrite Hs, <- HX. apply round_sum.
  intros r _. unfold x. destruct (N.eqb t 0).
  - unfold Qdiv. apply Qmult_le_0_compat; [apply QN_nonneg|apply Qinv_le_0_compat, QN_nonneg].
  - unfold Qdiv. apply Qmult_le_0_compat; [apply QN_nonneg|].
    apply Qmult_le_0_compat; [apply QN_nonneg|apply Qinv_le_0_compat, QN_nonneg].
Qed.

End Counter.

Lemma sum_spend_alloc a l : l <> [] ->
  sum_spend (map (alloc_row a (N.of_nat (length l)) (sum_impressions l)) l) == a_spend a.
Proof.
  intros Hl. destruct (N.eq_dec (sum_impressions l) 0) as [E|E].
  - rewrite E, sum_spend_even, QN_of_nat.
    assert (Hn : ~ inject_Z (Z.of_nat (length l)) == 0).
    { change 0 with (inject_Z 0). rewrite inject_Z_injective.
      destruct l; [congruence|]. cbn [length]. lia. }
    field. exact Hn.
  - rewrite sum_spend_prop by exact E.
    assert (Hn : ~ Py.QN (sum_impressions l) == 0).
    { unfold Py.QN. change 0 with (inject_Z 0). rewrite inject_Z_injective. lia. }
    field. exact Hn.
Qed.

End MtgMergeFacts.

(** C6 (amended): for every key [k] of the aggregated MTG data, with
    aggregate [a]:
    - when no CF row has AdsetID [k], the rows of the result with AdsetID [k]
      are the single new row, carrying exactly the aggregated spend, m_imp,
      m_clicks and m_conv;
    - when some CF row of [k] is special (its Media matches an MTG keyword),
      the special rows of [k] in the result (one per such CF row) have total
      spend equal to the aggregated spend, and each of m_imp, m_clicks,
      m_conv totals within half the number of those rows of the aggregate
      (the rounding of [int(round(...))]), for both the proportional and
      the even split;
    - when CF rows of [k] exist but none is special, the key is skipped:
      the rows of [k] are the CF rows, unchanged. *)
Theorem mtg_merge_allocation (kws : list string) (cf : list MtgMerge.cf_row)
  (mtg : list MtgMerge.mtg_row) (k : string) (a : MtgMerge.agg)
  (Hk : Py.get k (MtgMerge.aggregate mtg) = Some a) :
  let out := MtgMerge._merge_mtg_data_to_cf kws cf mtg in
  let F := filter (MtgMerge.has_id k) cf in
  (F = [] ->
     filter (MtgMerge.has_id k) out = [MtgMerge.new_row (MtgMerge.report_date_of cf) k a] /\
     MtgMerge.sum_spend (filter (MtgMerge.has_id k) out) == MtgMerge.a_spend a /\
     MtgMerge.sum_m MtgMerge.c_m_imp (filter (MtgMerge.has_id k) out) = MtgMerge.a_m_imp a /\
     MtgMerge.sum_m MtgMerge.c_m_clicks (filter (MtgMerge.has_id k) out) = MtgMerge.a_m_clicks a /\
     MtgMerge.sum_m MtgMerge.c_m_conv (filter (MtgMerge.has_id k) out) = MtgMerge.a_m_conv a) /\
  (filter (MtgMerge.is_special kws) F <> [] ->
     let rows := filter (fun r => MtgMerge.has_id k r && MtgMerge.is_special kws r) out in
     length rows = length (filter (MtgMerge.is_special kws) F) /\
     MtgMerge.sum_spend rows == MtgMerge.a_spend a /\
     Qabs (Py.QN (MtgMerge.sum_m MtgMerge.c_m_imp rows) - Py.QN (MtgMerge.a_m_imp a))
       <= inject_Z (Z.of_nat (length rows)) * (1#2) /\
     Qabs (Py.QN (MtgMerge.sum_m MtgMerge.c_m_clicks rows) - Py.QN (MtgMerge.a_m_clicks a))
       <= inject_Z (Z.of_nat (length rows)) * (1#2) /\
     Qabs (Py.QN (MtgMerge.sum_m MtgMerge.c_m_conv rows) - Py.QN (MtgMerge.a_m_conv a))
       <= inject_Z (Z.of_nat (length rows)) * (1#2)) /\
  (F <> [] -> filter (MtgMerge.is_special kws) F = [] ->
     filter (MtgMerge.has_id k) out = F).
Proof.
  cbv zeta. pose proof (MtgMergeFacts.merge_proj kws cf mtg k a Hk) as Hm.
  cbv zeta in Hm. unfold MtgMerge.step_proj in Hm. cbn [fst snd] in Hm.
  split; [|split].
  - intros HF. rewrite Hm, HF. cbn [fst snd app].
    split; [reflexivity|]. cbn. repeat split; [ring|lia..].
  - intros Hsp. rewrite MtgMergeFacts.filter_andb, Hm.
    destruct (filter (MtgMerge.has_id k) cf) as [|m ms] eqn:EF; [cbn in Hsp; congruence|].
    destruct (filter (MtgMerge.is_special kws) (m :: ms)) as [|s0 ss] eqn:El; [congruence|].
    cbn [fst snd]. rewrite app_nil_r.
    set (l := s0 :: ss).
    assert (Hr : filter (MtgMerge.is_special kws)
                  (map (fun r => if MtgMerge.is_special kws r
                                 then MtgMerge.alloc_row a (N.of_nat (length l))
                                        (MtgMerge.sum_impressions l) r else r) (m :: ms))
                 = map (MtgMerge.alloc_row a (N.of_nat (length l)) (MtgMerge.sum_impressions l)) l).
    { rewrite MtgMergeFacts.filter_map_comm.
      - unfold l. rewrite <- El. apply map_ext_in. intros r Hr.
        apply filter_In in Hr. destruct Hr as [_ ->]. reflexivity.
      - intros r. destruct (MtgMerge.is_special kws r) eqn:E; [|exact E].
        unfold MtgMerge.is_special in *. rewrite MtgMergeFacts.alloc_row_media. exact E. }
    rewrite Hr, length_map.
    assert (Hl : l <> []) by discriminate.
    split; [reflexivity|].
    split; [apply MtgMergeFacts.sum_spend_alloc, Hl|].
    repeat split; apply Qabs_Qle_condition;
      apply MtgMergeFacts.counter_bound; try exact Hl;
      intros; unfold MtgMerge.alloc_row; destruct (N.eqb _ 0); reflexivity.
  - intros HF Hsp. rewrite Hm.
    destruct (filter (MtgMerge.has_id k) cf) as [|m ms] eqn:EF; [congruence|].
    rewrite Hsp. cbn [fst snd]. apply app_nil_r.
Qed.

Lemma mtg_merge_allocation_witness :
  Py.get "A1" (MtgMerge.aggregate MtgExamples.mtg1) = Some MtgExamples.agg_A1 /\
  filter (MtgMerge.is_special MtgExamples.kws1)
    (filter (MtgMerge.has_id "A1") MtgExamples.cf1) <> [] /\
  MtgMerge.sum_spend
    (filter (fun r => MtgMerge.has_id "A1" r && MtgMerge.is_special MtgExamples.kws1 r)
       (MtgMerge._merge_mtg_data_to_cf MtgExamples.kws1 MtgExamples.cf1 MtgExamples.mtg1))
  == 10.
Proof.
  assert (Hk : Py.get "A1" (MtgMerge.aggregate MtgExamples.mtg1) = Some MtgExamples.agg_A1)
    by (vm_compute; reflexivity).
  assert (Hs : filter (MtgMerge.is_special MtgExamples.kws1)
                 (filter (MtgMerge.has_id "A1") MtgExamples.cf1) <> [])
    by (vm_compute; discriminate).
  split; [exact Hk|]. split; [exact Hs|].
  destruct (mtg_merge_allocation MtgExamples.kws1 MtgExamples.cf1 MtgExamples.mtg1 "A1"
              MtgExamples.agg_A1 Hk) as [_ [H _]].
  exact (proj1 (proj2 (H Hs))).
Defined.

(** C6 counterexample: the MTG data aggregates spend 10 for AdsetID B2,
    whose only CF row has Media Facebook (not an MTG keyword).  The key is
    skipped: no CF row of B2 is overwritten and no new row is created, so
    the rows of B2 carry the CF spend 3, and none of the 10 is attributed. *)
Lemma mtg_merge_counterexample :
  Py.get "B2" (MtgMerge.aggregate MtgExamples.mtg1) = Some MtgExamples.agg_B2 /\
  MtgMerge.a_spend MtgExamples.agg_B2 == 10 /\
  filter (fun r => MtgMerge.has_id "B2" r && MtgMerge.is_special MtgExamples.kws1 r)
    (MtgMerge._merge_mtg_data_to_cf MtgExamples.kws1 MtgExamples.cf1 MtgExamples.mtg1) = [] /\
  filter (fun r => MtgMerge.has_id "B2" r && String.eqb (MtgMerge.c_dataSource r) "MTG")
    (MtgMerge._merge_mtg_data_to_cf MtgExamples.kws1 MtgExamples.cf1 MtgExamples.mtg1) = [] /\
  MtgMerge.sum_spend (filter (MtgMerge.has_id "B2")
    (MtgMerge._merge_mtg_data_to_cf MtgExamples.kws1 MtgExamples.cf1 MtgExamples.mtg1)) == 3.
Proof. vm_compute. repeat split; reflexivity. Qed.

Module DailyReportMore.
Import DailyReport DailyReport2.

Lemma key_eqb_spec k k' : key_eqb k k' = true <-> k = k'.
Proof.
  destruct k as [a b], k' as [c d]; unfold key_eqb; cbn.
  rewrite andb_true_iff, Z.eqb_eq, String.eqb_eq. split; [intros [-> ->]; reflexivity|].
  intros H; injection H as -> ->; auto.
Qed.

Lemma group_add_keys k m g k' :
  In k' (map fst (group_add k m g)) <-> k' = k \/ In k' (map fst g).
Proof.
  induction g as [|[k1 m1] g IH]; cbn.
  - intuition.
  - change ((Z.eqb (fst k) (fst k1) && String.eqb (snd k) (snd k1))%bool) with (key_eqb k k1).
    destruct (key_eqb k k1) eqn:E.
    + apply key_eqb_spec in E; subst. cbn. intuition.
    + cbn. rewrite IH. intuition.
Qed.

Lemma group_add_nodup k m g :
  NoDup (map fst g) -> NoDup (map fst (group_add k m g)).
Proof.
  induction g as [|[k1 m1] g IH]; cbn; intros Hn.
  - constructor; [intros []|constructor].
  - change ((Z.eqb (fst k) (fst k1) && String.eqb (snd k) (snd k1))%bool) with (key_eqb k k1).
    inversion Hn as [|? ? Hni Hnd]; subst.
    destruct (key_eqb k k1) eqn:E; cbn.
    + exact Hn.
    + constructor; [|apply IH, Hnd].
      rewrite group_add_keys. intros [H|H]; [|contradiction].
      subst. rewrite (proj2 (key_eqb_spec k k) eq_refl) in E. discriminate.
Qed.

Lemma group_add_sum k m g :
  meq (msum (map snd (group_add k m g))) (madd (msum (map snd g)) m).
Proof.
  induction g as [|[k1 m1] g IH]; cbn.
  - apply meq_trans with m; [apply madd_zero_r|apply meq_sym, madd_zero_l].
  - destruct (_ && _)%bool; cbn; unfold msum in *; msolve.
Qed.

Lemma group_fold_sum rows g :
  meq (msum (map snd (fold_left gstep rows g))) (madd (msum (map snd g)) (msum (map s_metrics rows))).
Proof.
  revert g. induction rows as [|r rows IH]; intros g; cbn.
  - apply meq_sym, madd_zero_r.
  - eapply meq_trans; [apply IH|].
    eapply meq_trans; [apply madd_compat; [apply group_add_sum|apply meq_refl]|].
    apply madd_assoc.
Qed.

Lemma group_by_sum rows : meq (msum (map snd (group_by rows))) (msum (map s_metrics rows)).
Proof.
  unfold group_by. eapply meq_trans; [apply (group_fold_sum rows [])|]. apply madd_zero_l.
Qed.

Lemma group_fold_keys rows g k :
  In k (map fst (fold_left gstep rows g)) ->
  In k (map fst g) \/ exists r, In r rows /\ k = (s_reportDate r, s_Media r).
Proof.
  revert g. induction rows as [|r rows IH]; intros g H; cbn in H.
  - left; exact H.
  - destruct (IH _ H) as [H1|[r' [Hr' ->]]].
    + unfold gstep in H1. apply group_add_keys in H1 as [->|H1]; [|left; exact H1].
      right. exists r. split; [left|]; reflexivity.
    + right. exists r'. split; [right|]; auto.
Qed.

Lemma group_by_keys rows k :
  In k (map fst (group_by rows)) -> exists r, In r rows /\ k = (s_reportDate r, s_Media r).
Proof.
  intros H. destruct (group_fold_keys rows [] k H) as [[]|H']. exact H'.
Qed.

Lemma group_fold_nodup rows g : NoDup (map fst g) -> NoDup (map fst (fold_left gstep rows g)).
Proof.
  revert g. induction rows as [|r rows IH]; intros g H; cbn; [exact H|].
  apply IH, group_add_nodup, H.
Qed.

Lemma group_by_nodup rows : NoDup (map fst (group_by rows)).
Proof. apply group_fold_nodup. constructor. Qed.

Lemma synced_row_key u g : row_key (synced_row u g) = fst g.
Proof. destruct g as [[d m] x]. reflexivity. Qed.

Lemma synced_row_unlocked u g : dr_is_locked (synced_row u g) = false.
Proof. destruct g as [[d m] x]. reflexivity. Qed.

Lemma synced_row_metrics u g : row_metrics (synced_row u g) = snd g.
Proof. destruct g as [[d m] [a b c e f h i j]]. reflexivity. Qed.

Lemma sync_shape role user sd ed src t t1 :
  sync_data_from_performance role user sd ed src t = inr t1 ->
  may_write role = true /\
  t1 = (filter (fun r => negb (unlocked_in sd ed r)) t ++
        map (synced_row user) (group_by (filter (fun r => in_range sd ed (s_reportDate r)) src)))%list.
Proof.
  unfold sync_data_from_performance. destruct (may_write role); cbn; [|discriminate].
  intros H; injection H as <-. split; reflexivity.
Qed.

Lemma synced_in_range sd ed user src x :
  In x (map (synced_row user) (group_by (filter (fun r => in_range sd ed (s_reportDate r)) src))) ->
  unlocked_in sd ed x = true.
Proof.
  intros Hx. apply in_map_iff in Hx as [g [<- Hg]].
  destruct (group_by_keys _ (fst g) (in_map fst _ _ Hg)) as [s [Hs Hk]].
  apply filter_In in Hs as [_ Hs].
  unfold unlocked_in. rewrite synced_row_unlocked.
  change (dr_reportDate (synced_row user g)) with (fst (row_key (synced_row user g))).
  rewrite synced_row_key, Hk. cbn. rewrite Hs. reflexivity.
Qed.

Lemma filter_all {A} (p : A -> bool) l : (forall x, In x l -> p x = true) -> filter p l = l.
Proof.
  induction l as [|a l IH]; intros H; cbn; [reflexivity|].
  rewrite (H a (or_introl eq_refl)), IH; [reflexivity|]. intros; apply H; right; assumption.
Qed.

Lemma filter_none {A} (p : A -> bool) l : (forall x, In x l -> p x = false) -> filter p l = [].
Proof.
  induction l as [|a l IH]; intros H; cbn; [reflexivity|].
  rewrite (H a (or_introl eq_refl)), IH; [reflexivity|]. intros; apply H; right; assumption.
Qed.

Lemma filter_filter {A} (p q : A -> bool) l :
  filter p (filter q l) = filter (fun x => q x && p x) l.
Proof.
  induction l as [|a l IH]; cbn; [reflexivity|].
  destruct (q a); cbn; [destruct (p a)|]; cbn; rewrite ?IH; reflexivity.
Qed.

End DailyReportMore.


Module DailyReportMore2.
Import DailyReport DailyReport2 DailyReportMore.

Lemma lock_date_rows role user d b t t1 :
  lock_date role user d b t = inr t1 ->
  forall x, In x t1 -> dr_reportDate x = d -> dr_is_locked x = b.
Proof.
  unfold lock_date. destruct (may_write role); cbn; [|discriminate].
  intros H; injection H as <-. intros x Hx Hd.
  apply in_map_iff in Hx as [y [<- Hy]].
  destruct (Z.eqb_spec (dr_reportDate y) d) as [E|E]; [reflexivity|].
  cbn in Hd. contradiction.
Qed.

Lemma sync_rows role user sd ed src t t1 x :
  sync_data_from_performance role user sd ed src t = inr t1 -> In x t1 ->
  (In x t /\ unlocked_in sd ed x = false) \/
  (unlocked_in sd ed x = true /\ dr_spend_manual x = 0 /\ dr_spend_final x = dr_spend_original x).
Proof.
  intros H Hx. destruct (sync_shape _ _ _ _ _ _ _ H) as [_ ->].
  apply in_app_or in Hx as [Hx|Hx].
  - left. apply filter_In in Hx as [Hx Hu]. split; [exact Hx|].
    destruct (unlocked_in sd ed x); [discriminate|reflexivity].
  - right. split; [exact (synced_in_range _ _ _ _ _ Hx)|].
    apply in_map_iff in Hx as [[[d m] g] [<- _]]. split; reflexivity.
Qed.


End DailyReportMore2.

(** X2: a sync leaves the rows dated outside its range exactly as they
    were, in the same order. *)
Theorem sync_outside_range_unchanged (role user : string) (sd ed : Z)
  (src : list DailyReport.source_row) (t t1 : list DailyReport.report_row) :
  DailyReport.sync_data_from_performance role user sd ed src t = inr t1 ->
  filter (fun r => negb (DailyReport.in_range sd ed (DailyReport.dr_reportDate r))) t1 =
  filter (fun r => negb (DailyReport.in_range sd ed (DailyReport.dr_reportDate r))) t.
Proof.
  intros H. destruct (DailyReportMore.sync_shape _ _ _ _ _ _ _ H) as [_ ->].
  rewrite filter_app, DailyReportMore.filter_filter.
  rewrite (DailyReportMore.filter_none _ (map _ _)).
  - rewrite app_nil_r. apply filter_ext. intros r. unfold DailyReport2.unlocked_in.
    destruct (DailyReport.in_range _ _ _); cbn; [|reflexivity].
    destruct (DailyReport.dr_is_locked r); reflexivity.
  - intros x Hx. pose proof (DailyReportMore.synced_in_range _ _ _ _ _ Hx) as Hu.
    unfold DailyReport2.unlocked_in in Hu. apply andb_true_iff in Hu as [-> _]. reflexivity.
Qed.

(** X3: after a sync, the unlocked rows dated in the range hold at most one
    row per (date, media), and their metric columns (spend_final as spend)
    sum to the source rows of the range. *)
Theorem sync_unlocked_rows (role user : string) (sd ed : Z)
  (src : list DailyReport.source_row) (t t1 : list DailyReport.report_row) :
  DailyReport.sync_data_from_performance role user sd ed src t = inr t1 ->
  let fresh := filter (DailyReport2.unlocked_in sd ed) t1 in
  NoDup (map DailyReport2.row_key fresh) /\
  meq (msum (map DailyReport2.row_metrics fresh))
      (msum (map DailyReport.s_metrics
                 (filter (fun s => DailyReport.in_range sd ed (DailyReport.s_reportDate s)) src))).
Proof.
  intros H. destruct (DailyReportMore.sync_shape _ _ _ _ _ _ _ H) as [_ ->]. cbv zeta.
  rewrite filter_app, DailyReportMore.filter_filter.
  rewrite (DailyReportMore.filter_none _ t).
  2:{ intros x _. destruct (DailyReport2.unlocked_in sd ed x); reflexivity. }
  rewrite DailyReportMore.filter_all.
  2:{ intros x Hx. exact (DailyReportMore.synced_in_range _ _ _ _ _ Hx). }
  cbn [app]. rewrite !map_map. split.
  - erewrite map_ext; [apply DailyReportMore.group_by_nodup|].
    intros g. apply DailyReportMore.synced_row_key.
  - erewrite map_ext; [apply DailyReportMore.group_by_sum|].
    intros g. apply DailyReportMore.synced_row_metrics.
Qed.

(** X4: unlocking a date and then syncing a range that contains it
    discards every manual spend correction of that date: each row of the date
    is then an unlocked row with spend_manual 0 and spend_final equal to
    spend_original. *)
Theorem unlock_then_sync_resets_date (role user role' user' : string) (d sd ed : Z)
  (src : list DailyReport.source_row) (t t1 t2 : list DailyReport.report_row) :
  DailyReport.lock_date role user d false t = inr t1 ->
  DailyReport.sync_data_from_performance role' user' sd ed src t1 = inr t2 ->
  DailyReport.in_range sd ed d = true ->
  forall x, In x t2 -> DailyReport.dr_reportDate x = d ->
  DailyReport.dr_is_locked x = false /\ DailyReport.dr_spend_manual x == 0 /\
  DailyReport.dr_spend_final x == DailyReport.dr_spend_original x.
Proof.
  intros Hl Hs Hd x Hx Hxd.
  destruct (DailyReportMore2.sync_rows _ _ _ _ _ _ _ x Hs Hx) as [[Hin Hu]|[Hu [-> ->]]].
  - unfold DailyReport2.unlocked_in in Hu.
    rewrite (DailyReportMore2.lock_date_rows _ _ _ _ _ _ Hl x Hin Hxd), Hxd, Hd in Hu.
    discriminate.
  - unfold DailyReport2.unlocked_in in Hu. apply andb_true_iff in Hu as [_ Hu].
    apply negb_true_iff in Hu. split; [exact Hu|split; reflexivity].
Qed.

(** X5: locking a date and then syncing (any range) keeps every row of
    that date as the lock left it. *)
Theorem lock_then_sync_keeps_date (role user role' user' : string) (d sd ed : Z)
  (src : list DailyReport.source_row) (t t1 t2 : list DailyReport.report_row) :
  DailyReport.lock_date role user d true t = inr t1 ->
  DailyReport.sync_data_from_performance role' user' sd ed src t1 = inr t2 ->
  forall x, In x t1 -> DailyReport.dr_reportDate x = d -> In x t2.
Proof.
  intros Hl Hs x Hx Hd.
  exact (DailyReportFacts.sync_keeps_locked_rows _ _ _ _ _ _ _ x Hs Hx
           (DailyReportMore2.lock_date_rows _ _ _ _ _ _ Hl x Hx Hd)).
Qed.




Module HourlyETLMore.
Import HourlyETL HourlyETL2.

Lemma is_upper_lower c : is_upper (lower_ascii c) = false.
Proof.
  destruct c as [[] [] [] [] [] [] [] []]; reflexivity.
Qed.

Lemma get_lower i s : String.get i (lower s) = option_map lower_ascii (String.get i s).
Proof.
  revert i. induction s as [|c s IH]; intros [|i]; cbn; auto.
Qed.

Lemma has_upper_get k : has_upper k = true -> exists p c, String.get p k = Some c /\ is_upper c = true.
Proof.
  induction k as [|c k IH]; cbn; [discriminate|].
  intros H. destruct (is_upper c) eqn:E.
  - exists 0%nat, c. auto.
  - destruct (IH H) as [p [c' [Hp Hc]]]. exists (S p), c'. auto.
Qed.

Lemma get_lt p k c : String.get p k = Some c -> (p < String.length k)%nat.
Proof.
  revert p. induction k as [|c' k IH]; intros [|p]; cbn; try discriminate; [lia|].
  intros H. specialize (IH p H). lia.
Qed.

Lemma upper_never_contained k s :
  has_upper k = true -> contains k (lower s) = false.
Proof.
  intros Hk. unfold contains. destruct (String.index 0 k (lower s)) as [n|] eqn:E; [|reflexivity].
  exfalso. apply String.index_correct1 in E.
  destruct (has_upper_get k Hk) as [p [c [Hp Hc]]].
  pose proof (get_lt _ _ _ Hp) as Hlt.
  rewrite <- E in Hp. rewrite String.substring_correct1 in Hp by exact Hlt.
  rewrite get_lower in Hp. destruct (String.get (p + n) s) as [c'|]; cbn in Hp; [|discriminate].
  injection Hp as <-. rewrite is_upper_lower in Hc. discriminate.
Qed.

Lemma fetch_loop_agree rs rs' ps fuel page acc s :
  (forall p, (page <= p < page + fuel)%nat -> rs p = rs' p) ->
  fetch_loop rs ps fuel page acc s = fetch_loop rs' ps fuel page acc s.
Proof.
  revert page acc. induction fuel as [|f IH]; intros page acc H; cbn [fetch_loop]; [reflexivity|].
  rewrite (H page) by lia.
  destruct (rs' page) as [[|it its]|]; try reflexivity.
  destruct (Nat.ltb _ ps); [reflexivity|].
  apply IH. intros p Hp. apply H. lia.
Qed.

Lemma transform_cons kws it raw :
  _transform_data kws (it :: raw) =
  match transform_item kws it with Some r => r :: _transform_data kws raw | None => _transform_data kws raw end.
Proof. reflexivity. Qed.

End HourlyETLMore.

Module HourFilterFacts.
Import HourFilter.
Local Open Scope Z_scope.

Lemma name_ok_hours : forallb (fun n => name_ok (Z.of_nat n)) (seq 0 24) = true.
Proof. vm_compute. reflexivity. Qed.

Lemma hour_name_parts h : 0 <= h < 24 ->
  HourlyETL.contains ":" (hour_name h) = true /\ before_colon (hour_name h) = format_02d h.
Proof.
  intros Hh. pose proof (proj1 (forallb_forall _ _) name_ok_hours (Z.to_nat h)) as H.
  cbv beta in H. rewrite Z2Nat.id in H by lia. unfold name_ok in H.
  rewrite andb_true_iff, String.eqb_eq in H. apply H, in_seq. lia.
Qed.

Lemma back_to_utc o r : 0 <= r < 24 -> ((r + o + 24) mod 24 - o + 24) mod 24 = r.
Proof.
  intros Hr. pose proof (Z.div_mod (r + o + 24) 24) as D.
  set (q := (r + o + 24) / 24) in D.
  replace ((r + o + 24) mod 24 - o + 24) with (r + (2 - q) * 24) by lia.
  rewrite Z.mod_add by lia. apply Z.mod_small. exact Hr.
Qed.

End HourFilterFacts.

(** X9: on the hour dimension, the name [HH:00] shown for the rows of a
    UTC hour, sent back as a filter value, is turned into that same UTC
    hour, in every timezone; and no other UTC hour is shown under that
    name. *)
Theorem hour_filter_roundtrip (py_int : string -> option Z)
  (Hint : forall h, (0 <= h < 24)%Z -> py_int (HourFilter.format_02d h) = Some h)
  (tz : string) (r : Z) :
  (0 <= r < 24)%Z ->
  HourFilter.hour_filter_utc py_int (Hourly.tz_offset tz)
    (HourFilter.hour_name (Hourly.local_hour tz r)) = Some r /\
  (forall r', (0 <= r' < 24)%Z -> Hourly.local_hour tz r' = Hourly.local_hour tz r -> r' = r).
Proof.
  assert (Hf : forall x, (0 <= x < 24)%Z ->
    HourFilter.hour_filter_utc py_int (Hourly.tz_offset tz)
      (HourFilter.hour_name (Hourly.local_hour tz x)) = Some x).
  { intros x Hx. unfold HourFilter.hour_filter_utc.
    assert (Hl : (0 <= Hourly.local_hour tz x < 24)%Z)
      by (unfold Hourly.local_hour; apply Z.mod_pos_bound; lia).
    destruct (HourFilterFacts.hour_name_parts _ Hl) as [-> ->].
    rewrite (Hint _ Hl). f_equal. apply HourFilterFacts.back_to_utc. exact Hx. }
  intros Hr. split; [exact (Hf r Hr)|].
  intros r' Hr' E. pose proof (Hf r' Hr') as H'. rewrite E, (Hf r Hr) in H'.
  injection H' as ->. reflexivity.
Qed.

(** X10: the hourly ETL matches a special-media keyword against the
    lowercased media name without lowercasing the keyword, so a keyword that
    contains an uppercase ASCII letter never matches: the result is the same
    as with those keywords removed. *)
Theorem hourly_uppercase_keywords_ignored (kws : list string) (media : string) :
  HourlyETL._is_special_media kws media =
  HourlyETL._is_special_media (filter (fun k => negb (HourlyETL2.has_upper k)) kws) media.
Proof.
  unfold HourlyETL._is_special_media. destruct media as [|c m]; [reflexivity|].
  induction kws as [|k kws IH]; cbn [existsb filter]; [reflexivity|].
  destruct (HourlyETL2.has_upper k) eqn:E; cbn [negb existsb].
  - rewrite (HourlyETLMore.upper_never_contained k _ E). exact IH.
  - rewrite IH. reflexivity.
Qed.

(** X11: the API fetch reads no page beyond [max_pages]: two APIs that
    agree on pages 1 to [max_pages] give the same result, so data past the
    last allowed page is dropped without error. *)
Theorem fetch_reads_first_pages (rs rs' : nat -> option (list HourlyETL.api_item))
  (PAGE_SIZE max_pages : nat) (st : HourlyETL.state) :
  (forall p, (1 <= p <= max_pages)%nat -> rs p = rs' p) ->
  HourlyETL._fetch_api_data rs PAGE_SIZE max_pages st =
  HourlyETL._fetch_api_data rs' PAGE_SIZE max_pages st.
Proof.
  intros H. apply HourlyETLMore.fetch_loop_agree. intros p Hp. apply H. lia.
Qed.

(** X12: the hourly transform drops exactly the items whose time cannot be
    parsed; every row it produces has timezone "UTC" and comes from one item,
    with that item's (day, hour), media name and revenue, and with spend equal
    to the revenue for a special media and to the cost otherwise. *)
Theorem transform_data_rows (kws : list string) (raw : list HourlyETL.api_item) :
  length (HourlyETL._transform_data kws raw) = length (filter HourlyETL2.parsable raw) /\
  forall r, In r (HourlyETL._transform_data kws raw) ->
  HourlyETL.h_timezone r = "UTC" /\
  exists it, In it raw /\
    HourlyETL.i_when it = Some (HourlyETL.h_reportDate r, HourlyETL.h_reportHour r) /\
    HourlyETL.h_Media r = HourlyETL.i_trafficSourceName it /\
    HourlyETL.h_revenue r = HourlyETL.i_revenue it /\
    HourlyETL.h_spend r =
      (if HourlyETL._is_special_media kws (HourlyETL.h_Media r)
       then HourlyETL.i_revenue it else HourlyETL.i_cost it).
Proof.
  induction raw as [|it raw [IHl IH]]; [split; [reflexivity|intros r []]|].
  rewrite HourlyETLMore.transform_cons. cbn [filter].
  assert (HourlyETL2.parsable it = match HourlyETL.i_when it with Some _ => true | None => false end)
    as Hp by reflexivity.
  rewrite Hp. unfold HourlyETL.transform_item.
  destruct (HourlyETL.i_when it) as [[d h]|] eqn:Ew; cbn [length]; split.
  - rewrite IHl. reflexivity.
  - intros r [<-|Hr]; cbn.
    + split; [reflexivity|]. exists it. repeat split; auto.
    + destruct (IH r Hr) as [Hu [it' [Hi Ht]]]. split; [exact Hu|]. exists it'. split; [right|]; auto.
  - exact IHl.
  - intros r Hr. destruct (IH r Hr) as [Hu [it' [Hi Ht]]]. split; [exact Hu|]. exists it'. split; [right|]; auto.
Qed.

(** X13: after a successful hourly run, every row of the table that was
    not a UTC row inside the window is still there, and every UTC row inside
    the window comes from the rows inserted by the run. *)
Theorem run_replaces_window (responses : nat -> option (list HourlyETL.api_item))
  (PAGE_SIZE max_pages : nat) (kws : list string) (utc_now test_hours : Z)
  (st st' : HourlyETL.state) (b : bool) :
  HourlyETL.run responses PAGE_SIZE max_pages kws utc_now test_hours st = (inr b, st') ->
  let w := HourlyETL.window utc_now test_hours in
  (forall r, In r (HourlyETL.table st) -> HourlyETL2.in_window w r = false ->
     In r (HourlyETL.table st')) /\
  (forall r, In r (HourlyETL.table st') -> HourlyETL2.in_window w r = true ->
     exists rows, In (HourlyETL.Insert rows) (HourlyETL.commands st') /\ In r rows).
Proof.
  cbv zeta. unfold HourlyETL.run, HourlyETL2.in_window.
  destruct (HourlyETL.window utc_now test_hours) as [sd ed]. cbn [fst snd].
  pose proof (HourlyETLFacts.fetch_state responses PAGE_SIZE max_pages st) as Hs.
  unfold HourlyETL.mbind. cbv beta.
  set (F := HourlyETL._fetch_api_data responses PAGE_SIZE max_pages st) in *.
  clearbody F. destruct F as [[e|raw] s1]; cbn in Hs; subst s1; [discriminate|].
  destruct (HourlyETL._transform_data kws raw) as [|x xs] eqn:Et; cbn;
    intros H; injection H as _ <-; cbn; split.
  - intros r Hr Hw. apply filter_In. split; [exact Hr|]. cbn [fst snd] in Hw |- *. rewrite Hw. reflexivity.
  - intros r Hr Hw. apply filter_In in Hr as [_ Hk].
    cbn [fst snd] in Hw, Hk. rewrite Hw in Hk. discriminate.
  - intros r Hr Hw. apply in_or_app. left. apply filter_In. split; [exact Hr|].
    cbn [fst snd] in Hw |- *. rewrite Hw. reflexivity.
  - intros r Hr Hw. exists (x :: xs). split.
    + apply in_or_app. right. left. reflexivity.
    + apply in_app_or in Hr as [Hr|Hr]; [|exact Hr].
      apply filter_In in Hr as [_ Hk]. cbn [fst snd] in Hw, Hk. rewrite Hw in Hk. discriminate.
Qed.

Module MtgMore.
Import MtgMerge MtgMerge2.

Section Inv.
Variable kws : list string.
Variable cf : list cf_row.
Local Notation R := (MtgMerge2.R kws).
Local Notation newP := (MtgMerge2.newP cf).
Local Notation inv := (MtgMerge2.inv kws cf).

Lemma R_fields keys r r' : R keys r r' -> c_AdsetID r' = c_AdsetID r /\ c_Media r' = c_Media r.
Proof. intros [->|(_ & _ & s & a & b & c & ->)]; split; reflexivity. Qed.

Lemma R_mono keys k r r' : R keys r r' -> R (keys ++ [k]) r r'.
Proof.
  intros [H|(H1 & H2 & H3)]; [left; exact H|right].
  split; [exact H1|split; [apply in_or_app; left; exact H2|exact H3]].
Qed.

Lemma Forall2_ids keys l : Forall2 (R keys) cf l -> map c_AdsetID l = map c_AdsetID cf.
Proof.
  intros H. induction H as [|r r' l1 l2 Hr _ IH]; [reflexivity|].
  cbn. rewrite IH, (proj1 (R_fields _ _ _ Hr)). reflexivity.
Qed.

Lemma newP_mono keys k n : newP keys n -> newP (keys ++ [k]) n.
Proof.
  intros (H1 & H2 & H3 & H4 & H5). repeat split; auto. apply in_or_app; left; exact H4.
Qed.

Lemma no_id_filter k (l : list cf_row) : filter (has_id k) l = [] -> ~ In k (map c_AdsetID l).
Proof.
  intros H Hin. apply in_map_iff in Hin as [r [Hr Hin]].
  assert (In r (filter (has_id k) l)) as Hf.
  { apply filter_In. split; [exact Hin|]. unfold has_id. rewrite Hr. apply String.eqb_refl. }
  rewrite H in Hf. contradiction.
Qed.

Lemma nodup_snoc {A} (l : list A) x : NoDup l -> ~ In x l -> NoDup (l ++ [x]).
Proof.
  induction l as [|a l IH]; cbn; intros Hn Hx.
  - constructor; [intros []|constructor].
  - inversion Hn as [|? ? Ha Hl]; subst. constructor.
    + rewrite in_app_iff. intros [H|[H|[]]]; [contradiction|]. apply Hx. left. symmetry. exact H.
    + apply IH; [exact Hl|]. intros H; apply Hx; right; exact H.
Qed.

Lemma alloc_with a c t r : exists s mi mc mv, alloc_row a c t r = with_mtg r s mi mc mv.
Proof. unfold alloc_row. destruct (N.eqb t 0); do 4 eexists; reflexivity. Qed.

Lemma step_inv rd keys st k a :
  inv keys st -> ~ In k keys -> inv (keys ++ [k]) (merge_step kws rd st (k, a)).
Proof.
  destruct st as [F N]. intros (H1 & H2 & H3) Hk. unfold inv in *. cbn [fst snd] in *.
  unfold merge_step. destruct (filter (has_id k) F) as [|r0 rs] eqn:E1.
  - cbn [fst snd]. split; [|split].
    + eapply Forall2_impl; [|exact H1]. intros; apply R_mono; assumption.
    + apply Forall_app. split.
      * eapply Forall_impl; [|exact H2]. intros; apply newP_mono; assumption.
      * constructor; [|constructor]. repeat split; cbn.
        -- apply in_or_app; right; left; reflexivity.
        -- rewrite <- (Forall2_ids _ _ H1). exact (no_id_filter _ _ E1).
    + rewrite map_app. cbn. apply nodup_snoc; [exact H3|].
      intros Hin. apply in_map_iff in Hin as [n [Hn Hin]].
      rewrite Forall_forall in H2. destruct (H2 n Hin) as (_ & _ & _ & Hk' & _).
      rewrite Hn in Hk'. contradiction.
  - destruct (filter (is_special kws) (r0 :: rs)) as [|s0 ss] eqn:E2; cbn [fst snd].
    + split; [|split; [|exact H3]].
      * eapply Forall2_impl; [|exact H1]. intros; apply R_mono; assumption.
      * eapply Forall_impl; [|exact H2]. intros; apply newP_mono; assumption.
    + split; [|split; [|exact H3]].
      * clear -H1. induction H1 as [|r r' l1 l2 Hr _ IH]; cbn; constructor; [|exact IH].
        destruct (has_id k r' && is_special kws r')%bool eqn:Ec; [|apply R_mono; exact Hr].
        apply andb_true_iff in Ec as [Eh Es].
        destruct (R_fields _ _ _ Hr) as [Hid Hm]. apply MtgMergeFacts.has_id_true in Eh.
        right. split; [|split].
        -- unfold is_special in *. rewrite <- Hm. exact Es.
        -- rewrite <- Hid, Eh. apply in_or_app; right; left; reflexivity.
        -- match goal with |- context [alloc_row ?a ?c ?t r'] =>
             destruct (alloc_with a c t r') as (s & mi & mc & mv & ->) end.
           destruct Hr as [->|(_ & _ & s' & a' & b' & c' & ->)]; do 4 eexists; reflexivity.
      * eapply Forall_impl; [|exact H2]. intros; apply newP_mono; assumption.
Qed.

Lemma fold_inv rd entries : forall keys st,
  inv keys st -> NoDup (keys ++ map fst entries) ->
  inv (keys ++ map fst entries) (fold_left (merge_step kws rd) entries st).
Proof.
  induction entries as [|[k a] es IH]; intros keys st Hi Hn; cbn [fold_left map].
  - rewrite app_nil_r. exact Hi.
  - change (fst (k, a)) with k.
    replace (keys ++ k :: map fst es)%list with ((keys ++ [k]) ++ map fst es)%list
      by (rewrite <- app_assoc; reflexivity).
    apply IH.
    + apply step_inv; [exact Hi|]. intros Hk. apply (NoDup_remove_2 _ _ _ Hn).
      apply in_or_app; left; exact Hk.
    + rewrite <- app_assoc. exact Hn.
Qed.

End Inv.

Lemma merge_shape kws cf mtg :
  exists cf' new, _merge_mtg_data_to_cf kws cf mtg = (cf' ++ new)%list /\
  inv kws cf (map fst (aggregate mtg)) (cf', new).
Proof.
  destruct mtg as [|t ts].
  - exists cf, []. split; [symmetry; apply app_nil_r|].
    split; [|split; constructor]. cbn.
    induction cf as [|r l IH]; constructor; [left; reflexivity|exact IH].
  - unfold _merge_mtg_data_to_cf.
    pose proof (fold_inv kws cf (report_date_of cf) (aggregate (t :: ts)) [] (cf, []))
      as H.
    destruct (fold_left _ _ _) as [cf' new]. exists cf', new. split; [reflexivity|].
    apply H.
    + split; [|split; constructor]. cbn.
      clear. induction cf as [|r l IH]; constructor; [left; reflexivity|exact IH].
    + apply MtgMergeFacts.aggregate_nodup.
Qed.

Lemma Forall2_length' {A B} (P : A -> B -> Prop) l l' : Forall2 P l l' -> length l' = length l.
Proof. intros H. induction H; cbn; congruence. Qed.

(** Totals of [mtg_by_adset]. *)
Section Totals.
Variable fa : agg -> Q.
Variable ft : mtg_row -> Q.
Hypothesis Hzero : forall t, fa (mkAgg 0 0 0 0 (t_CampaignID t) (t_Adset t) (t_AdsID t) (t_Ads t)) == 0.
Hypothesis Hadd : forall a t,
  fa (mkAgg (a_spend a + t_spend t) (a_m_imp a + t_m_imp t)%N
            (a_m_clicks a + t_m_clicks t)%N (a_m_conv a + t_m_conv t)%N
            (a_CampaignID a) (a_Adset a) (a_AdsID a) (a_Ads a)) == fa a + ft t.

Lemma assign_total_Q k v d :
  agg_total_Q fa (Py.assign k v d) + (match Py.get k d with Some a => fa a | None => 0 end)
  == agg_total_Q fa d + fa v.
Proof.
  induction d as [|[k' v'] d IH]; cbn.
  - ring.
  - destruct (String.eqb k k'); cbn; [ring|]. unfold agg_total_Q in IH. rewrite <- Qplus_assoc, IH. ring.
Qed.

Lemma step_total_Q acc t :
  agg_total_Q fa (aggregate_step acc t) == agg_total_Q fa acc + (if valid_adset t then ft t else 0).
Proof.
  unfold aggregate_step, valid_adset. destruct (_ || _); cbn [negb]; [ring|].
  pose proof (assign_total_Q (t_AdsetID t)
    (let a := match Py.get (t_AdsetID t) acc with
              | Some a => a
              | None => mkAgg 0 0 0 0 (t_CampaignID t) (t_Adset t) (t_AdsID t) (t_Ads t)
              end in
     mkAgg (a_spend a + t_spend t) (a_m_imp a + t_m_imp t)%N
           (a_m_clicks a + t_m_clicks t)%N (a_m_conv a + t_m_conv t)%N
           (a_CampaignID a) (a_Adset a) (a_AdsID a) (a_Ads a)) acc) as H.
  cbv zeta in H |- *. destruct (Py.get (t_AdsetID t) acc) as [a|].
  - rewrite Hadd in H. apply (Qplus_inj_r _ _ (fa a)). rewrite H. ring.
  - rewrite Hadd, Hzero in H. rewrite Qplus_0_r in H. rewrite H. ring.
Qed.

Lemma aggregate_total_Q mtg acc :
  agg_total_Q fa (fold_left aggregate_step mtg acc) ==
  agg_total_Q fa acc + mtg_total_Q ft (filter valid_adset mtg).
Proof.
  revert acc. induction mtg as [|t mtg IH]; intros acc; cbn [fold_left filter].
  - cbn. ring.
  - rewrite IH, step_total_Q. destruct (valid_adset t); unfold mtg_total_Q; cbn [fold_right]; ring.
Qed.
End Totals.

Section TotalsN.
Variable fa : agg -> N.
Variable ft : mtg_row -> N.
Hypothesis Hzero : forall t, fa (mkAgg 0 0 0 0 (t_CampaignID t) (t_Adset t) (t_AdsID t) (t_Ads t)) = 0%N.
Hypothesis Hadd : forall a t,
  fa (mkAgg (a_spend a + t_spend t) (a_m_imp a + t_m_imp t)%N
            (a_m_clicks a + t_m_clicks t)%N (a_m_conv a + t_m_conv t)%N
            (a_CampaignID a) (a_Adset a) (a_AdsID a) (a_Ads a)) = (fa a + ft t)%N.

Lemma assign_total_N k v d :
  (agg_total_N fa (Py.assign k v d) + (match Py.get k d with Some a => fa a | None => 0 end))%N
  = (agg_total_N fa d + fa v)%N.
Proof.
  induction d as [|[k' v'] d IH]; cbn.
  - lia.
  - destruct (String.eqb k k'); cbn; [lia|]. unfold agg_total_N in IH. lia.
Qed.

Lemma aggregate_total_N mtg acc :
  agg_total_N fa (fold_left aggregate_step mtg acc) =
  (agg_total_N fa acc + mtg_total_N ft (filter valid_adset mtg))%N.
Proof.
  revert acc. induction mtg as [|t mtg IH]; intros acc; cbn [fold_left filter].
  - cbn. lia.
  - rewrite IH. unfold aggregate_step, valid_adset.
    destruct (_ || _); cbn [negb]; [reflexivity|].
    match goal with |- context [Py.assign ?k ?v acc] => pose proof (assign_total_N k v acc) as H end.
    cbv zeta in H |- *. destruct (Py.get (t_AdsetID t) acc) as [a|].
    + rewrite Hadd in H. unfold mtg_total_N; cbn [fold_right]; lia.
    + rewrite Hadd, Hzero in H. unfold mtg_total_N; cbn [fold_right]; lia.
Qed.
End TotalsN.

End MtgMore.

(** X14: the MTG merge returns the CF rows, in their order, followed by
    the new MTG rows; a CF row is either returned unchanged or, when its
    media is a special media and its AdsetID is one of the aggregated MTG
    keys, returned with only its spend, m_imp, m_clicks and m_conv
    replaced. *)
Theorem mtg_merge_only_special_rows (kws : list string) (cf : list MtgMerge.cf_row)
  (mtg : list MtgMerge.mtg_row) :
  exists cf' new, MtgMerge._merge_mtg_data_to_cf kws cf mtg = (cf' ++ new)%list /\
  Forall2 (fun r r' =>
    r' = r \/
    (MtgMerge.is_special kws r = true /\
     In (MtgMerge.c_AdsetID r) (map fst (MtgMerge.aggregate mtg)) /\
     exists s mi mc mv, r' = MtgMerge.with_mtg r s mi mc mv)) cf cf'.
Proof.
  destruct (MtgMore.merge_shape kws cf mtg) as (cf' & new & E & H1 & _).
  exists cf', new. split; [exact E|exact H1].
Qed.

(** X15: every row the MTG merge adds after the CF rows has data source
    "MTG", media "Mintegral" and 0 impressions, carries an aggregated MTG
    AdsetID that no CF row has, and no two added rows share an AdsetID. *)
Theorem mtg_merge_new_rows (kws : list string) (cf : list MtgMerge.cf_row)
  (mtg : list MtgMerge.mtg_row) :
  exists cf' new, MtgMerge._merge_mtg_data_to_cf kws cf mtg = (cf' ++ new)%list /\
  length cf' = length cf /\
  Forall (fun n =>
    MtgMerge.c_dataSource n = "MTG" /\ MtgMerge.c_Media n = "Mintegral" /\
    MtgMerge.c_impressions n = 0%N /\
    In (MtgMerge.c_AdsetID n) (map fst (MtgMerge.aggregate mtg)) /\
    ~ In (MtgMerge.c_AdsetID n) (map MtgMerge.c_AdsetID cf)) new /\
  NoDup (map MtgMerge.c_AdsetID new).
Proof.
  destruct (MtgMore.merge_shape kws cf mtg) as (cf' & new & E & H1 & H2 & H3).
  exists cf', new. split; [exact E|]. split; [exact (MtgMore.Forall2_length' _ _ _ H1)|].
  split; [exact H2|exact H3].
Qed.

(** X16: aggregating the MTG rows by AdsetID drops the rows whose AdsetID
    is "" or "0" and keeps the totals of the others: the spend, m_imp,
    m_clicks and m_conv summed over the aggregated keys equal the sums over
    the MTG rows with a valid AdsetID. *)
Theorem mtg_aggregate_totals (mtg : list MtgMerge.mtg_row) :
  let kept := filter MtgMerge2.valid_adset mtg in
  MtgMerge2.agg_total_Q MtgMerge.a_spend (MtgMerge.aggregate mtg)
    == MtgMerge2.mtg_total_Q MtgMerge.t_spend kept /\
  MtgMerge2.agg_total_N MtgMerge.a_m_imp (MtgMerge.aggregate mtg)
    = MtgMerge2.mtg_total_N MtgMerge.t_m_imp kept /\
  MtgMerge2.agg_total_N MtgMerge.a_m_clicks (MtgMerge.aggregate mtg)
    = MtgMerge2.mtg_total_N MtgMerge.t_m_clicks kept /\
  MtgMerge2.agg_total_N MtgMerge.a_m_conv (MtgMerge.aggregate mtg)
    = MtgMerge2.mtg_total_N MtgMerge.t_m_conv kept.
Proof.
  cbv zeta. unfold MtgMerge.aggregate. split; [|split; [|split]].
  - rewrite (MtgMore.aggregate_total_Q MtgMerge.a_spend MtgMerge.t_spend);
      [cbn; ring|intros; reflexivity|intros; reflexivity].
  - rewrite (MtgMore.aggregate_total_N MtgMerge.a_m_imp MtgMerge.t_m_imp);
      [reflexivity|intros; reflexivity|intros; reflexivity].
  - rewrite (MtgMore.aggregate_total_N MtgMerge.a_m_clicks MtgMerge.t_m_clicks);
      [reflexivity|intros; reflexivity|intros; reflexivity].
  - rewrite (MtgMore.aggregate_total_N MtgMerge.a_m_conv MtgMerge.t_m_conv);
      [reflexivity|intros; reflexivity|intros; reflexivity].
Qed.

Module DashboardFacts.
Import Dashboard ClickHouse.

Definition not_quote_start (s : string) : Prop :=
  match s with String c _ => c <> quote | EmptyString => True end.

Lemma string_app_assoc (a b c : string) : (a ++ b) ++ c = a ++ (b ++ c).
Proof. induction a as [|x a IH]; cbn; [reflexivity|now rewrite IH]. Qed.

Lemma quote_not_backslash : Ascii.eqb quote backslash = false.
Proof. reflexivity. Qed.

Lemma read_escaped v rest :
  has_backslash v = false -> not_quote_start rest ->
  read_string_body (escape_quotes v ++ String quote rest) = Some (v, rest).
Proof.
  intros Hb Hr. induction v as [|c v IH].
  - cbn [escape_quotes append]. destruct rest as [|d rest']; [reflexivity|].
    cbn [read_string_body]. rewrite quote_not_backslash, Ascii.eqb_refl.
    destruct (Ascii.eqb d quote) eqn:E; [|reflexivity].
    apply Ascii.eqb_eq in E. cbn in Hr. contradiction.
  - cbn [has_backslash] in Hb. apply Bool.orb_false_iff in Hb as [Hc Hb].
    cbn [escape_quotes]. destruct (Ascii.eqb c quote) eqn:Eq.
    + apply Ascii.eqb_eq in Eq; subst c.
      cbn [append read_string_body]. rewrite quote_not_backslash, Ascii.eqb_refl.
      rewrite IH by exact Hb. reflexivity.
    + cbn [append read_string_body]. rewrite Hc, Eq.
      rewrite IH by exact Hb. reflexivity.
Qed.

Lemma string_app_nil (a : string) : a ++ "" = a.
Proof. induction a as [|x a IH]; cbn; [reflexivity|now rewrite IH]. Qed.

Definition join_tail (sep : string) (ys : list string) : string :=
  match ys with [] => "" | _ => sep ++ Permissions.join sep ys end.

Lemma join_split sep xs x ys :
  exists pre, Permissions.join sep (xs ++ x :: ys)%list = pre ++ x ++ join_tail sep ys.
Proof.
  induction xs as [|a xs [pre IH]].
  - exists "". destruct ys; cbn; [now rewrite string_app_nil|reflexivity].
  - exists (a ++ sep ++ pre). cbn [app].
    destruct (xs ++ x :: ys)%list as [|b l] eqn:E; [destruct xs; discriminate|].
    change (Permissions.join sep (a :: b :: l)) with (a ++ sep ++ Permissions.join sep (b :: l)).
    rewrite IH, !string_app_assoc. reflexivity.
Qed.

Lemma where_split sd ed fs1 dim v fs2 perm :
  exists pre, Dashboard._build_where_clause sd ed (fs1 ++ (dim, v) :: fs2)%list perm
    = pre ++ Hierarchy.column_of dim ++ " = '" ++
      (escape_quotes v ++ "'" ++ join_tail " AND " (map filter_condition fs2)).
Proof.
  unfold Dashboard._build_where_clause. rewrite map_app. cbn [map].
  rewrite app_assoc.
  match goal with
  | |- exists pre, Permissions.join _ (?l ++ _ :: _)%list = _ =>
      destruct (join_split " AND " l (filter_condition (dim, v)) (map filter_condition fs2)) as [pre ->]
  end.
  exists pre. cbn [filter_condition]. rewrite !string_app_assoc. reflexivity.
Qed.

Lemma join_tail_shape ys : not_quote_start (join_tail " AND " ys).
Proof. destruct ys; cbn; [exact I|discriminate]. Qed.

End DashboardFacts.

(** X17: in the WHERE clause built by [_build_where_clause], a filter value
    without a backslash, escaped by doubling its single quotes, is read
    back by ClickHouse's string-literal lexer as exactly that value, and the
    text after the closing quote is the rest of the clause (empty or
    " AND ..."). *)
Lemma where_clause_filter_reads_back (sd ed : string) (fs1 : list (string * string))
  (dim v : string) (fs2 : list (string * string)) (perm : option string) :
  ClickHouse.has_backslash v = false ->
  exists pre suf,
    Dashboard._build_where_clause sd ed (fs1 ++ (dim, v) :: fs2)%list perm
      = pre ++ Hierarchy.column_of dim ++ " = '" ++ (Dashboard.escape_quotes v ++ "'" ++ suf) /\
    ClickHouse.read_string_body (Dashboard.escape_quotes v ++ "'" ++ suf) = Some (v, suf) /\
    (suf = "" \/ exists t, suf = " AND " ++ t).
Proof.
  intros Hb.
  destruct (DashboardFacts.where_split sd ed fs1 dim v fs2 perm) as [pre Hw].
  exists pre, (DashboardFacts.join_tail " AND " (map Dashboard.filter_condition fs2)).
  split; [exact Hw|split].
  - apply DashboardFacts.read_escaped; [exact Hb|apply DashboardFacts.join_tail_shape].
  - destruct (map Dashboard.filter_condition fs2) as [|y ys]; [left; reflexivity|right].
    eexists; reflexivity.
Qed.

(** X18: [_build_where_clause] escapes only single quotes, so a filter value
    that starts with a backslash and a quote, followed by a character other
    than a quote, ends its string literal early: ClickHouse reads the literal
    as a single quote and the rest of the value becomes SQL text of the
    clause. *)
Lemma where_clause_backslash_breakout (sd ed : string) (fs1 : list (string * string))
  (dim : string) (c : Ascii.ascii) (t : string) (fs2 : list (string * string))
  (perm : option string) :
  c <> Dashboard.quote ->
  exists pre suf,
    Dashboard._build_where_clause sd ed
      (fs1 ++ (dim, String ClickHouse.backslash (String Dashboard.quote (String c t))) :: fs2)%list perm
      = pre ++ Hierarchy.column_of dim ++ " = '" ++
        String ClickHouse.backslash (String Dashboard.quote (String Dashboard.quote
          (String c (Dashboard.escape_quotes t) ++ "'" ++ suf))) /\
    ClickHouse.read_string_body
      (String ClickHouse.backslash (String Dashboard.quote (String Dashboard.quote
        (String c (Dashboard.escape_quotes t) ++ "'" ++ suf))))
      = Some (String Dashboard.quote EmptyString, String c (Dashboard.escape_quotes t) ++ "'" ++ suf).
Proof.
  intros Hc.
  destruct (DashboardFacts.where_split sd ed fs1 dim
              (String ClickHouse.backslash (String Dashboard.quote (String c t))) fs2 perm) as [pre Hw].
  exists pre, (DashboardFacts.join_tail " AND " (map Dashboard.filter_condition fs2)).
  assert (Ec : Ascii.eqb c Dashboard.quote = false)
    by (destruct (Ascii.eqb c Dashboard.quote) eqn:E; [apply Ascii.eqb_eq in E; contradiction|reflexivity]).
  split.
  - rewrite Hw. cbn [Dashboard.escape_quotes].
    rewrite Ec. reflexivity.
  - cbn [append ClickHouse.read_string_body].
    rewrite DashboardFacts.quote_not_backslash, Ascii.eqb_refl, Ec. reflexivity.
Qed.

Module DailyHierarchyFacts.
Import DailyHierarchy.

Lemma assign_new {V} (k : string) (v : V) d :
  Py.get k d = None -> Py.assign k v d = (d ++ [(k, v)])%list.
Proof.
  induction d as [|[k' v'] d IH]; cbn; [reflexivity|].
  destruct (String.eqb k k'); [discriminate|]. intros H. now rewrite IH.
Qed.

Lemma msum_app a b : meq (msum (a ++ b)%list) (madd (msum a) (msum b)).
Proof.
  induction a as [|x a IH]; cbn [app msum fold_right].
  - symmetry. apply madd_zero_l.
  - unfold msum in *. rewrite IH. symmetry. apply madd_assoc.
Qed.

Definition on_date (d : string) (r : query_row) : bool := String.eqb (q_date_str r) d.

Definition child (r : query_row) : string * (metrics * daily_derived) := (q_media r, media_node r).

Definition qkey (r : query_row) : string * string := (q_date_str r, q_media r).

Definition node_ok (rows : list query_row) (d : string) (o : option date_node) : Prop :=
  match o with
  | None => filter (on_date d) rows = []
  | Some n =>
      filter (on_date d) rows <> [] /\ dn_derived n = zero_derived /\
      meq (dn_metrics n) (msum (map q_metrics (filter (on_date d) rows))) /\
      dn_children n = map child (filter (on_date d) rows)
  end.

Lemma get_map_child (m : string) rs :
  ~ In m (map q_media rs) -> Py.get m (map child rs) = None.
Proof.
  induction rs as [|r rs IH]; cbn; [reflexivity|].
  intros Hn. destruct (String.eqb_spec m (q_media r)); [exfalso; auto|].
  apply IH. auto.
Qed.

Lemma media_not_in rows x :
  ~ In (qkey x) (map qkey rows) ->
  ~ In (q_media x) (map q_media (filter (on_date (q_date_str x)) rows)).
Proof.
  intros Hn Hi. apply in_map_iff in Hi as [r [Hm Hr]].
  apply filter_In in Hr as [Hr Hd]. unfold on_date in Hd. apply String.eqb_eq in Hd.
  apply Hn, in_map_iff. exists r. split; [|exact Hr]. unfold qkey. now rewrite Hd, Hm.
Qed.

Lemma fold_spec rows :
  NoDup (map qkey rows) ->
  forall d, node_ok rows d (Py.get d (fold_left hierarchy_step rows [])).
Proof.
  induction rows as [|x rows IH] using rev_ind; intros Hnd d.
  - reflexivity.
  - rewrite map_app in Hnd. apply NoDup_app_remove_r in Hnd as Hl.
    assert (Hx : ~ In (qkey x) (map qkey rows)).
    { cbn in Hnd. apply NoDup_remove_2 in Hnd. rewrite app_nil_r in Hnd. exact Hnd. }
    specialize (IH Hl).
    rewrite fold_left_app. cbn [fold_left].
    unfold hierarchy_step at 1.
    set (st := fold_left hierarchy_step rows []).
    unfold node_ok. rewrite filter_app. cbn [filter].
    destruct (String.eqb_spec d (q_date_str x)) as [->|Hne].
    + rewrite PyFacts.get_assign_same.
      assert (Ho : on_date (q_date_str x) x = true) by (unfold on_date; apply String.eqb_refl).
      rewrite Ho.
      pose proof (IH (q_date_str x)) as Hi. unfold node_ok in Hi. fold st in Hi.
      destruct (Py.get (q_date_str x) st) as [n|] eqn:Eg; cbn [dn_metrics dn_derived dn_children].
      * destruct Hi as (_ & Hdv & Hm & Hc).
        split; [destruct (filter _ rows); discriminate|]. split; [exact Hdv|]. split.
        -- rewrite map_app, msum_app, Hm. cbn [map msum fold_right].
           apply madd_compat; [reflexivity|]. symmetry; apply madd_zero_r.
        -- rewrite Hc, assign_new, map_app; [reflexivity|].
           apply get_map_child, media_not_in, Hx.
      * rewrite Hi. cbn [app]. split; [discriminate|]. split; [reflexivity|]. split.
        -- cbn [map msum fold_right]. msolve.
        -- reflexivity.
    + rewrite PyFacts.get_assign_other by exact Hne.
      assert (Ho : on_date d x = false)
        by (unfold on_date; destruct (String.eqb_spec (q_date_str x) d); [congruence|reflexivity]).
      rewrite Ho, app_nil_r. exact (IH d).
Qed.

Lemma get_finalize d (st : list (string * date_node)) :
  Py.get d (map (fun e => let '(d, n) := e in
                (d, mkDateNode (dn_metrics n) (_calculate_metrics (dn_metrics n)) (dn_children n))) st)
  = option_map (fun n => mkDateNode (dn_metrics n) (_calculate_metrics (dn_metrics n)) (dn_children n))
               (Py.get d st).
Proof.
  induction st as [|[k n] st IH]; cbn; [reflexivity|].
  destruct (String.eqb d k); [reflexivity|exact IH].
Qed.

End DailyHierarchyFacts.

(** X19: when the query rows have distinct (date, media) pairs (as
    [GROUP BY reportDate, Media] gives), [get_hierarchy] has a date node
    exactly for the dates of the rows; each node's metric sums are the sums
    of that date's rows, its ratios are [_calculate_metrics] of those sums,
    and its children are that date's rows, one per media, in query order. *)
Theorem daily_hierarchy_date_nodes (rows : list DailyHierarchy.query_row) :
  NoDup (map (fun r => (DailyHierarchy.q_date_str r, DailyHierarchy.q_media r)) rows) ->
  forall d,
    let rs := filter (fun r => String.eqb (DailyHierarchy.q_date_str r) d) rows in
    match Py.get d (DailyHierarchy.get_hierarchy rows) with
    | None => rs = []
    | Some n =>
        rs <> [] /\
        meq (DailyHierarchy.dn_metrics n) (msum (map DailyHierarchy.q_metrics rs)) /\
        DailyHierarchy.dn_derived n = DailyHierarchy._calculate_metrics (DailyHierarchy.dn_metrics n) /\
        DailyHierarchy.dn_children n = map (fun r => (DailyHierarchy.q_media r, DailyHierarchy.media_node r)) rs
    end.
Proof.
  intros Hnd d rs. unfold DailyHierarchy.get_hierarchy.
  rewrite DailyHierarchyFacts.get_finalize.
  pose proof (DailyHierarchyFacts.fold_spec rows Hnd d) as H.
  unfold DailyHierarchyFacts.node_ok, DailyHierarchyFacts.on_date, DailyHierarchyFacts.child in H.
  destruct (Py.get d _) as [n|]; cbn [option_map]; [|exact H].
  destruct H as (Hne & _ & Hm & Hc). cbn. auto.
Qed.

Module DailyLevelsFacts.
Import DailyReport DailyLevels.






End DailyLevelsFacts.


(** X21: [format_row_for_frontend] never raises on any row, even with
    missing keys, NULLs or zero counts; spend is read with missing as 0, and
    revenue is [total_revenue] unless that is missing, NULL or 0, in which
    case it is [revenue]. *)
Theorem format_row_never_raises (row : Formatter.raw_row) :
  exists f, Formatter.format_row_for_frontend row = Some f /\
    Formatter.o_spend f = Formatter.get_float (Formatter.f_spend row) /\
    Formatter.o_revenue f =
      (if Formatter.truthy (Formatter.f_total_revenue row)
       then Formatter.get_float (Formatter.f_total_revenue row)
       else Formatter.get_float (Formatter.f_revenue row)).
Proof.
  unfold Formatter.format_row_for_frontend.
  rewrite !FormatterFacts.py_div_or1, FormatterFacts.py_div_or1f.
  cbn [Formatter.bind]. eexists. split; [reflexivity|]. split; reflexivity.
Qed.


Lemma sync_outside_range_unchanged_witness :
  filter (fun r => negb (DailyReport.in_range 1 3 (DailyReport.dr_reportDate r))) DailyExamples.synced =
  filter (fun r => negb (DailyReport.in_range 1 3 (DailyReport.dr_reportDate r))) DailyExamples.table.
Proof.
  apply (sync_outside_range_unchanged "admin" "alice" 1 3 DailyExamples.source).
  vm_compute; reflexivity.
Defined.

Lemma sync_unlocked_rows_witness :
  let fresh := filter (DailyReport2.unlocked_in 1 3) DailyExamples.synced in
  NoDup (map DailyReport2.row_key fresh) /\
  meq (msum (map DailyReport2.row_metrics fresh))
      (msum (map DailyReport.s_metrics
                 (filter (fun s => DailyReport.in_range 1 3 (DailyReport.s_reportDate s))
                    DailyExamples.source))).
Proof.
  apply (sync_unlocked_rows "admin" "alice" 1 3 DailyExamples.source DailyExamples.table).
  vm_compute; reflexivity.
Defined.

Lemma unlock_then_sync_resets_date_witness :
  DailyReport.lock_date "admin" "alice" 2 false DailyExamples.table = inr DailyExamples.unlocked /\
  forall x, In x DailyExamples.unlocked_synced -> DailyReport.dr_reportDate x = 2%Z ->
  DailyReport.dr_is_locked x = false /\ DailyReport.dr_spend_manual x == 0 /\
  DailyReport.dr_spend_final x == DailyReport.dr_spend_original x.
Proof.
  split; [vm_compute; reflexivity|].
  apply (unlock_then_sync_resets_date "admin" "alice" "ops" "carol" 2 1 3
           DailyExamples.source DailyExamples.table DailyExamples.unlocked);
    vm_compute; reflexivity.
Defined.

Lemma lock_then_sync_keeps_date_witness :
  DailyReport.lock_date "admin" "alice" 1 true DailyExamples.table = inr DailyExamples.locked /\
  forall x, In x DailyExamples.locked -> DailyReport.dr_reportDate x = 1%Z ->
  In x DailyExamples.locked_synced.
Proof.
  split; [vm_compute; reflexivity|].
  apply (lock_then_sync_keeps_date "admin" "alice" "ops" "carol" 1 1 3
           DailyExamples.source DailyExamples.table);
    vm_compute; reflexivity.
Defined.




Lemma fetch_reads_first_pages_witness :
  HourlyExamples.responses 3 <> HourlyExamples.responses' 3 /\
  HourlyETL._fetch_api_data HourlyExamples.responses 2 2 HourlyExamples.st =
  HourlyETL._fetch_api_data HourlyExamples.responses' 2 2 HourlyExamples.st.
Proof.
  split; [discriminate|].
  apply fetch_reads_first_pages.
  intros p Hp. destruct p as [|[|[|p]]]; [lia|reflexivity|reflexivity|lia].
Defined.

Lemma run_replaces_window_witness :
  let w := HourlyETL.window HourlyExamples.utc_now 0 in
  (forall r, In r (HourlyETL.table HourlyExamples.st) -> HourlyETL2.in_window w r = false ->
     In r (HourlyETL.table (snd HourlyExamples.after_run))) /\
  (forall r, In r (HourlyETL.table (snd HourlyExamples.after_run)) -> HourlyETL2.in_window w r = true ->
     exists rows, In (HourlyETL.Insert rows) (HourlyETL.commands (snd HourlyExamples.after_run)) /\
                  In r rows).
Proof.
  apply (run_replaces_window HourlyExamples.responses 2 2 ["mintegral"] HourlyExamples.utc_now 0
           HourlyExamples.st (snd HourlyExamples.after_run) true).
  vm_compute; reflexivity.
Defined.

Lemma decimal_int_format_02d h :
  (0 <= h < 24)%Z -> HourlyExamples.decimal_int (HourFilter.format_02d h) = Some h.
Proof.
  intros Hh.
  assert (h = 0 \/ h = 1 \/ h = 2 \/ h = 3 \/ h = 4 \/ h = 5 \/ h = 6 \/ h = 7 \/
          h = 8 \/ h = 9 \/ h = 10 \/ h = 11 \/ h = 12 \/ h = 13 \/ h = 14 \/ h = 15 \/
          h = 16 \/ h = 17 \/ h = 18 \/ h = 19 \/ h = 20 \/ h = 21 \/ h = 22 \/ h = 23)%Z
    as Hc by lia.
  repeat destruct Hc as [->|Hc]; try (vm_compute; reflexivity).
  subst h. vm_compute; reflexivity.
Qed.

Lemma hour_filter_roundtrip_witness :
  HourFilter.hour_filter_utc HourlyExamples.decimal_int (Hourly.tz_offset "Asia/Shanghai")
    (HourFilter.hour_name (Hourly.local_hour "Asia/Shanghai" 20)) = Some 20%Z /\
  (forall r', (0 <= r' < 24)%Z ->
     Hourly.local_hour "Asia/Shanghai" r' = Hourly.local_hour "Asia/Shanghai" 20 -> r' = 20%Z).
Proof.
  apply (hour_filter_roundtrip HourlyExamples.decimal_int decimal_int_format_02d "Asia/Shanghai" 20).
  lia.
Defined.

Lemma where_clause_filter_reads_back_witness :
  ClickHouse.has_backslash "O'Brien" = false /\
  exists pre suf,
    Dashboard._build_where_clause "2024-05-01" "2024-05-02" ([("media", "fb")] ++ ("offer", "O'Brien") :: [("date", "2024-05-01")])%list None
      = pre ++ Hierarchy.column_of "offer" ++ " = '" ++ (Dashboard.escape_quotes "O'Brien" ++ "'" ++ suf) /\
    ClickHouse.read_string_body (Dashboard.escape_quotes "O'Brien" ++ "'" ++ suf) = Some ("O'Brien", suf) /\
    (suf = "" \/ exists t, suf = " AND " ++ t).
Proof.
  split; [reflexivity|].
  apply (where_clause_filter_reads_back "2024-05-01" "2024-05-02" [("media", "fb")] "offer" "O'Brien"
           [("date", "2024-05-01")] None).
  reflexivity.
Defined.

Lemma where_clause_backslash_breakout_witness :
  exists pre suf,
    Dashboard._build_where_clause "2024-05-01" "2024-05-02" ([] ++ ("media", String ClickHouse.backslash (String Dashboard.quote (String (Ascii.ascii_of_nat 32) "OR 1=1 --"))) :: [])%list None
      = pre ++ Hierarchy.column_of "media" ++ " = '" ++
        String ClickHouse.backslash (String Dashboard.quote (String Dashboard.quote
          (String (Ascii.ascii_of_nat 32) (Dashboard.escape_quotes "OR 1=1 --") ++ "'" ++ suf))) /\
    ClickHouse.read_string_body
      (String ClickHouse.backslash (String Dashboard.quote (String Dashboard.quote
        (String (Ascii.ascii_of_nat 32) (Dashboard.escape_quotes "OR 1=1 --") ++ "'" ++ suf))))
      = Some (String Dashboard.quote EmptyString, String (Ascii.ascii_of_nat 32) (Dashboard.escape_quotes "OR 1=1 --") ++ "'" ++ suf).
Proof.
  apply (where_clause_backslash_breakout "2024-05-01" "2024-05-02" [] "media" (Ascii.ascii_of_nat 32) "OR 1=1 --" [] None).
  discriminate.
Defined.

Lemma daily_hierarchy_date_nodes_witness :
  let rs := filter (fun r => String.eqb (DailyHierarchy.q_date_str r) "2024-05-02") HierarchyExamples.rows in
  match Py.get "2024-05-02" (DailyHierarchy.get_hierarchy HierarchyExamples.rows) with
  | None => rs = []
  | Some n =>
      rs <> [] /\
      meq (DailyHierarchy.dn_metrics n) (msum (map DailyHierarchy.q_metrics rs)) /\
      DailyHierarchy.dn_derived n = DailyHierarchy._calculate_metrics (DailyHierarchy.dn_metrics n) /\
      DailyHierarchy.dn_children n = map (fun r => (DailyHierarchy.q_media r, DailyHierarchy.media_node r)) rs
  end.
Proof.
  apply (daily_hierarchy_date_nodes HierarchyExamples.rows).
  vm_compute. repeat constructor; cbn; intuition congruence.
Defined.
